(** * Data Transfer Hub, S3 plugin: the CDK composition of the stack

    A shallow embedding of [source/lib/main-stack.ts] (class
    [DataTransferS3Stack]) and of [common-resources.ts] (class
    [CommonStack]), and the properties of the composed stack.

    The constructors are embedded as computations in a state-and-exception
    monad over the construct tree they build.  Values that CDK leaves to
    deployment (parameter references, resource names, pseudo parameters)
    are tokens, as in CDK; CloudFormation's side (parameter validation,
    condition evaluation, token resolution) is a separate layer over the
    composed stack. *)

From stdpp Require Import base option strings list gmap.

Set Default Proof Using "Type".

(** ** JavaScript helpers *)

(** [a || b] on an optional string: [undefined] and the empty string are
    falsy. *)
Definition js_or (a : option string) (b : string) : string :=
  match a with
  | Some (String c s) => String c s
  | _ => b
  end.

(** [s.slice(0, -n)] *)
Definition slice_0_neg (n : nat) (s : string) : string :=
  String.substring 0 (String.length s - n) s.

(** [`${x}`] of a possibly undefined value *)
Definition interpolate (x : option string) : string :=
  default "undefined" x.

(** ** Tokens

    What CDK cannot know at synthesis is a token; CloudFormation resolves
    it at deployment. *)
Inductive Token : Type :=
| Lit (s : string)
| Ref (logicalId : string)
| GetAtt (logicalId attribute : string)
| Cat (a b : Token)
| FnGetAzs.

Module Aws.
Definition REGION : Token := Ref "AWS::Region".
Definition STACK_NAME : Token := Ref "AWS::StackName".
Definition ACCOUNT_ID : Token := Ref "AWS::AccountId".
Definition PARTITION : Token := Ref "AWS::Partition".
End Aws.

(** Resolution against the values known at deployment: parameter values,
    pseudo parameters, physical names and attributes of resources. *)
Fixpoint resolve (ρ : gmap string string) (t : Token) : string :=
  match t with
  | Lit s => s
  | Ref x => default EmptyString (ρ !! x)
  | GetAtt x a => default EmptyString (ρ !! (x +:+ "." +:+ a))
  | Cat a b => resolve ρ a +:+ resolve ρ b
  | FnGetAzs => default EmptyString (ρ !! "Fn::GetAZs")
  end.

(** ** Condition expressions ([Fn.condition...]) *)
#[warnings="-register-all"]
Inductive ICfnConditionExpression : Type :=
| conditionAnd (conditions : list ICfnConditionExpression)
| conditionEquals (lhs rhs : Token)
| conditionNot (condition : ICfnConditionExpression).

Fixpoint evalCondition (ρ : gmap string string)
    (e : ICfnConditionExpression) : bool :=
  match e with
  | conditionAnd cs => forallb (evalCondition ρ) cs
  | conditionEquals a b => bool_decide (resolve ρ a = resolve ρ b)
  | conditionNot c => negb (evalCondition ρ c)
  end.

(** The deployment values a token reads when it is resolved. *)
Fixpoint token_keys (t : Token) : list string :=
  match t with
  | Lit _ => []
  | Ref x => [x]
  | GetAtt x a => [x +:+ "." +:+ a]
  | Cat a b => token_keys a ++ token_keys b
  | FnGetAzs => ["Fn::GetAZs"]
  end.

(** ** Regular expressions, for [allowedPattern] *)
Inductive Regex : Type :=
| RNone
| REps
| RClass (accepts : Ascii.ascii → bool)
| RSeq (r s : Regex)
| RAlt (r s : Regex)
| RStar (r : Regex).

Fixpoint nullable (r : Regex) : bool :=
  match r with
  | RNone => false
  | REps => true
  | RClass _ => false
  | RSeq r s => nullable r && nullable s
  | RAlt r s => nullable r || nullable s
  | RStar _ => true
  end.

Definition rseq (r s : Regex) : Regex :=
  match r, s with
  | RNone, _ => RNone
  | _, RNone => RNone
  | REps, _ => s
  | _, REps => r
  | _, _ => RSeq r s
  end.

Definition ralt (r s : Regex) : Regex :=
  match r, s with
  | RNone, _ => s
  | _, RNone => r
  | _, _ => RAlt r s
  end.

Fixpoint derivative (c : Ascii.ascii) (r : Regex) : Regex :=
  match r with
  | RNone => RNone
  | REps => RNone
  | RClass f => if f c then REps else RNone
  | RSeq r s =>
      if nullable r
      then ralt (rseq (derivative c r) s) (derivative c s)
      else rseq (derivative c r) s
  | RAlt r s => ralt (derivative c r) (derivative c s)
  | RStar r => rseq (derivative c r) (RStar r)
  end.

(** The whole string must match, as CloudFormation requires of
    [AllowedPattern]. *)
Fixpoint matches (r : Regex) (s : string) : bool :=
  match s with
  | EmptyString => nullable r
  | String c s => matches (derivative c r) s
  end.

Definition rplus (r : Regex) : Regex := RSeq r (RStar r).
Definition ropt (r : Regex) : Regex := RAlt REps r.

(** [r{lo,lo+extra}] *)
Fixpoint roptional (extra : nat) (r : Regex) : Regex :=
  match extra with
  | O => REps
  | S n => ropt (RSeq r (roptional n r))
  end.

Fixpoint rrepeat (lo extra : nat) (r : Regex) : Regex :=
  match lo with
  | O => roptional extra r
  | S n => RSeq r (rrepeat n extra r)
  end.

Definition in_range (lo hi : string) (c : Ascii.ascii) : bool :=
  match lo, hi with
  | String l EmptyString, String h EmptyString =>
      (Ascii.nat_of_ascii l <=? Ascii.nat_of_ascii c)%nat
      && (Ascii.nat_of_ascii c <=? Ascii.nat_of_ascii h)%nat
  | _, _ => false
  end.

Definition is_char (x : string) (c : Ascii.ascii) : bool :=
  in_range x x c.

Definition upper := in_range "A" "Z".
Definition lower := in_range "a" "z".
Definition digit := in_range "0" "9".
Definition alnum (c : Ascii.ascii) : bool := upper c || lower c || digit c.

(** [\w] *)
Definition word (c : Ascii.ascii) : bool := alnum c || is_char "_" c.

(** ** The CDK data model used by the two source files *)

(** [new X(scope, id, ...)] registers the node [scope/id]; a node is
    referred to by its path. *)
Definition child (scope id : string) : string :=
  match scope with
  | EmptyString => id
  | _ => scope +:+ "/" +:+ id
  end.

(** [construct.node.defaultChild] *)
Definition defaultChild (path : string) : string := path +:+ "/Resource".

(** [Duration.minutes(n)], [Duration.days(n)] *)
Module Duration.
Inductive TimeUnit := Minutes | Days.
Record t := { amount : N; unit : TimeUnit }.
Definition minutes (n : N) : t := {| amount := n; unit := Minutes |}.
Definition days (n : N) : t := {| amount := n; unit := Days |}.
Definition toSeconds (d : t) : N :=
  match unit d with
  | Minutes => 60 * amount d
  | Days => 86400 * amount d
  end%N.
End Duration.

Inductive RemovalPolicy := DESTROY | RETAIN | SNAPSHOT.

Inductive ParameterType :=
| String_                      (* 'String' *)
| Number                       (* 'Number' *)
| AWS_EC2_VPC_Id               (* 'AWS::EC2::VPC::Id' *)
| List_AWS_EC2_Subnet_Id.      (* 'List<AWS::EC2::Subnet::Id>' *)

(** An [allowedPattern]: the text of the source and the expression it
    denotes. *)
Record Pattern := { pattern_text : string; pattern_regex : Regex }.

Module CfnParameterProps.
Record t := {
  description : string;
  type : ParameterType;
  default : option string;
  allowedValues : option (list string);
  allowedPattern : option Pattern;
}.
End CfnParameterProps.

Record CfnParameter := {
  logicalId : string;
  parameterProps : CfnParameterProps.t;
}.

Definition valueAsString (p : CfnParameter) : Token := Ref (logicalId p).
Definition valueAsNumber (p : CfnParameter) : Token := Ref (logicalId p).
Definition valueAsList (p : CfnParameter) : Token := Ref (logicalId p).

(** An entry of [paramGroups]: [{ Label: { default: label }, Parameters }] *)
Record ParamGroup := { Label : string; Parameters : list string }.

(** cfn-nag suppression rule interface *)
Record CfnNagSuppressRule := { id : string; reason : string }.

(** A role of a compute construct, named by the path of its owner. *)
Record IRole := { roleOf : string }.

Module iam.
Inductive Effect := ALLOW | DENY.
Inductive ServicePrincipal := ServicePrincipal_ (service : string).
Record PolicyStatement := {
  actions : list string;
  resources : list Token;
  effect : option Effect;
  principals : list ServicePrincipal;
}.
Record PolicyDocument := {
  assignSids : bool;
  statements : list PolicyStatement;
}.
(** [new iam.Policy(scope, id)] *)
Record Policy := { policyPath : string }.
End iam.

Module ddb.
Inductive AttributeType := BINARY | NUMBER | STRING.
Inductive BillingMode := PAY_PER_REQUEST | PROVISIONED.
Inductive TableEncryption := DEFAULT | CUSTOMER_MANAGED | AWS_MANAGED.
Record Attribute := { name : string; type : AttributeType }.
Record TableProps := {
  partitionKey : Attribute;
  billingMode : BillingMode;
  removalPolicy : RemovalPolicy;
  encryption : TableEncryption;
  pointInTimeRecovery : bool;
}.
Record Table := { tablePath : string }.
Definition tableName (t : Table) : Token := Ref (defaultChild (tablePath t)).
Definition tableArn (t : Table) : Token :=
  GetAtt (defaultChild (tablePath t)) "Arn".
End ddb.

Module sqs.
Inductive QueueEncryption := UNENCRYPTED | KMS_MANAGED | KMS.
Record Queue := { queuePath : string }.
Definition queueName (q : Queue) : Token :=
  GetAtt (defaultChild (queuePath q)) "QueueName".
Record DeadLetterQueue := { queue : Queue; maxReceiveCount : N }.
Record QueueProps := {
  visibilityTimeout : option Duration.t;
  retentionPeriod : option Duration.t;
  encryption : option QueueEncryption;
  deadLetterQueue : option DeadLetterQueue;
}.
(** [queue.metricApproximateNumberOfMessagesVisible()] *)
Record Metric := { namespace : string; metricName : string; ofQueue : Queue }.
Definition metricApproximateNumberOfMessagesVisible (q : Queue) : Metric :=
  {| namespace := "AWS/SQS";
     metricName := "ApproximateNumberOfMessagesVisible";
     ofQueue := q |}.
End sqs.

Module cw.
Inductive ComparisonOperator :=
| GREATER_THAN_OR_EQUAL_TO_THRESHOLD
| GREATER_THAN_THRESHOLD
| LESS_THAN_THRESHOLD
| LESS_THAN_OR_EQUAL_TO_THRESHOLD.
Record AlarmProps := {
  metric : sqs.Metric;
  threshold : Z;
  comparisonOperator : option ComparisonOperator;
  evaluationPeriods : nat;
  datapointsToAlarm : option nat;
}.
Record Alarm := { alarmPath : string }.
End cw.

Module kms.
Record KeyProps := {
  enableKeyRotation : bool;
  enabled : bool;
  alias : Token;
  policy : iam.PolicyDocument;
}.
Record Key := { keyPath : string }.
End kms.

Module sns.
Record TopicProps := { masterKey : kms.Key; displayName : Token }.
Record Topic := { topicPath : string }.
Definition topicName (t : Topic) : Token :=
  GetAtt (defaultChild (topicPath t)) "TopicName".
End sns.

Module CfnOutputProps.
Record t := { value : Token; description : string }.
End CfnOutputProps.

Module sm.
(** [sm.Secret.fromSecretNameV2] *)
Record ISecret := { secretName : Token; secretArn : Token }.
End sm.

Module s3.
(** [s3.Bucket.fromBucketName] *)
Record IBucket := { bucketName : Token }.
End s3.

Module ec2.
Record VpcAttributes := {
  vpcId : Token;
  availabilityZones : Token;
  publicSubnetIds : Token;
}.
Record IVpc := { vpcAttributes : VpcAttributes }.
End ec2.

(** An environment handed to a data-plane process: variable name to
    value, in the order of the object literal. *)
Definition Env := list (string * Token).

Record CommonProps := { alarmEmail : Token }.

Record EcsTaskProps := {
  ecs_env : Env;
  ecs_vpc : ec2.IVpc;
  ecsSubnetIds : Token;
  ecsClusterName : Token;
  ecs_cliRelease : string;
}.

Record Ec2WorkerProps := {
  ec2_env : Env;
  ec2_vpc : ec2.IVpc;
  ec2_queue : sqs.Queue;
  maxCapacity : option Token;
  minCapacity : option Token;
  desiredCapacity : option Token;
  ec2_cliRelease : string;
}.

Record DBProps := {
  db_runType : string;
  db_queue : sqs.Queue;
  asgName : option Token;
}.

Record EventProps := {
  events : Token;
  bucket : s3.IBucket;
  prefix : Token;
  event_queue : sqs.Queue;
}.

Record CfnConditionProps := { expression : ICfnConditionExpression }.
Record CfnCondition := { conditionId : string }.

(** The instances of the classes whose sources are in other files of the
    repository; [main-stack.ts] uses these members of them. *)
Record TaskDefinition := { taskRole : IRole }.
Record EcsStack := { taskDefinition : TaskDefinition }.
Record AutoScalingGroup := { role : IRole; autoScalingGroupName : Token }.
Record Ec2WorkerStack := { workerAsg : AutoScalingGroup }.
Record CfnResource := { resourcePath : string }.
Record EventStack := {
  nestedStackResource : option CfnResource;
  templateFile : string;
}.

(** ** The construct tree and the composition monad *)

Module Node.
(** What a [new] or a [from...] call adds to the tree. *)
Inductive t :=
| Construct_
| Table (props : ddb.TableProps)
| Queue (props : sqs.QueueProps)
| Alarm (props : cw.AlarmProps)
| Key (props : kms.KeyProps)
| Topic (props : sns.TopicProps)
| CfnOutput (props : CfnOutputProps.t)
| Secret (secretName : Token)
| Bucket (bucketName : Token)
| Vpc (attrs : ec2.VpcAttributes)
| Policy
| EcsStack (props : EcsTaskProps)
| Ec2WorkerStack (props : Ec2WorkerProps)
| DashboardStack (props : DBProps)
| EventStack (props : EventProps)
| CfnCondition (props : CfnConditionProps).
End Node.

Inductive GrantMethod :=
| grantSendMessages | grantConsumeMessages | grantRead | grantReadWrite.

Inductive GrantResource :=
| OnQueue (q : sqs.Queue)
| OnBucket (b : s3.IBucket).

(** [resource.method(grantee)] *)
Record Grant := {
  resource : GrantResource;
  method : GrantMethod;
  grantee : IRole;
}.

Inductive MetadataValue :=
| rules_to_suppress (rules : list CfnNagSuppressRule)
| text (s : string).

(** [throw new Error(message)] *)
Inductive Error := Error_ (message : string).

(** The stack under construction: the two private accumulators of
    [DataTransferS3Stack], its declared parameters and template options,
    its construct tree, and what the calls made on constructs after their
    creation have recorded. *)
Record Stack := mkStack {
  paramGroups : list ParamGroup;
  paramLabels : gmap string string;
  parameters : list CfnParameter;
  templateDescription : option string;
  (** [templateOptions.metadata] holds [this.paramGroups] and
      [this.paramLabels] themselves, not copies *)
  templateInterface : bool;
  children : list (string * Node.t);
  policyStatements : list (iam.Policy * iam.PolicyStatement);
  inlinePolicies : list (IRole * iam.Policy);
  grants : list Grant;
  metadata : list (string * string * MetadataValue);
  logicalIds : list (string * string);
  subscriptions : list (sns.Topic * Token);
  alarmActions : list (cw.Alarm * sns.Topic);
  resourceConditions : list (CfnResource * CfnCondition);
}.

Definition emptyStack : Stack :=
  mkStack [] ∅ [] None false [] [] [] [] [] [] [] [] [].

Definition templateMetadata (s : Stack)
    : option (list ParamGroup * gmap string string) :=
  if templateInterface s then Some (paramGroups s, paramLabels s) else None.

Definition upd_paramGroups f (s : Stack) : Stack :=
  let 'mkStack a b c d e g h i j k l m n o := s in
  mkStack (f a) b c d e g h i j k l m n o.
Definition upd_paramLabels f (s : Stack) : Stack :=
  let 'mkStack a b c d e g h i j k l m n o := s in
  mkStack a (f b) c d e g h i j k l m n o.
Definition upd_parameters f (s : Stack) : Stack :=
  let 'mkStack a b c d e g h i j k l m n o := s in
  mkStack a b (f c) d e g h i j k l m n o.
Definition set_templateDescription x (s : Stack) : Stack :=
  let 'mkStack a b c d e g h i j k l m n o := s in
  mkStack a b c (Some x) e g h i j k l m n o.
Definition set_templateInterface (s : Stack) : Stack :=
  let 'mkStack a b c d e g h i j k l m n o := s in
  mkStack a b c d true g h i j k l m n o.
Definition upd_children f (s : Stack) : Stack :=
  let 'mkStack a b c d e g h i j k l m n o := s in
  mkStack a b c d e (f g) h i j k l m n o.
Definition upd_policyStatements f (s : Stack) : Stack :=
  let 'mkStack a b c d e g h i j k l m n o := s in
  mkStack a b c d e g (f h) i j k l m n o.
Definition upd_inlinePolicies f (s : Stack) : Stack :=
  let 'mkStack a b c d e g h i j k l m n o := s in
  mkStack a b c d e g h (f i) j k l m n o.
Definition upd_grants f (s : Stack) : Stack :=
  let 'mkStack a b c d e g h i j k l m n o := s in
  mkStack a b c d e g h i (f j) k l m n o.
Definition upd_metadata f (s : Stack) : Stack :=
  let 'mkStack a b c d e g h i j k l m n o := s in
  mkStack a b c d e g h i j (f k) l m n o.
Definition upd_logicalIds f (s : Stack) : Stack :=
  let 'mkStack a b c d e g h i j k l m n o := s in
  mkStack a b c d e g h i j k (f l) m n o.
Definition upd_subscriptions f (s : Stack) : Stack :=
  let 'mkStack a b c d e g h i j k l m n o := s in
  mkStack a b c d e g h i j k l (f m) n o.
Definition upd_alarmActions f (s : Stack) : Stack :=
  let 'mkStack a b c d e g h i j k l m n o := s in
  mkStack a b c d e g h i j k l m (f n) o.
Definition upd_resourceConditions f (s : Stack) : Stack :=
  let 'mkStack a b c d e g h i j k l m n o := s in
  mkStack a b c d e g h i j k l m n (f o).

(** [arr.push(x)] *)
Definition push {A} (x : A) (l : list A) : list A := l ++ [x].

Inductive Outcome (A : Type) :=
| Returned (a : A)
| Threw (e : Error).
Arguments Returned {A} a.
Arguments Threw {A} e.

(** A constructor body: it runs on the stack built so far, and either
    returns or throws; what it built before throwing stays built. *)
Definition M (A : Type) : Type := Stack → Outcome A * Stack.

#[global] Instance M_ret : MRet M := λ A a s, (Returned a, s).
#[global] Instance M_bind : MBind M := λ A B f m s,
  match m s with
  | (Returned a, s') => f a s'
  | (Threw e, s') => (Threw e, s')
  end.

Definition modify (f : Stack → Stack) : M unit := λ s, (Returned (), f s).
Definition throw {A} (e : Error) : M A := λ s, (Threw e, s).

Definition addChild (path : string) (n : Node.t) : M unit :=
  modify (upd_children (push (path, n))).

Definition addMetadata (target key : string) (v : MetadataValue) : M unit :=
  modify (upd_metadata (push (target, key, v))).

Definition overrideLogicalId (target newId : string) : M unit :=
  modify (upd_logicalIds (push (target, newId))).

Definition addCfnNagSuppressRules (resource : string)
    (rules : list CfnNagSuppressRule) : M unit :=
  addMetadata resource "cfn_nag" (rules_to_suppress rules).

Definition attachInlinePolicy (r : IRole) (p : iam.Policy) : M unit :=
  modify (upd_inlinePolicies (push (r, p))).

Definition addStatements (p : iam.Policy)
    (statements : list iam.PolicyStatement) : M unit :=
  modify (upd_policyStatements (λ l, l ++ ((λ st, (p, st)) <$> statements))).

Definition grant (r : GrantResource) (m : GrantMethod) (to : IRole) : M unit :=
  modify (upd_grants (push {| resource := r; method := m; grantee := to |})).

Definition Queue_grantSendMessages (q : sqs.Queue) (to : IRole) : M unit :=
  grant (OnQueue q) grantSendMessages to.
Definition Queue_grantConsumeMessages (q : sqs.Queue) (to : IRole) : M unit :=
  grant (OnQueue q) grantConsumeMessages to.
Definition Bucket_grantRead (b : s3.IBucket) (to : IRole) : M unit :=
  grant (OnBucket b) grantRead to.
Definition Bucket_grantReadWrite (b : s3.IBucket) (to : IRole) : M unit :=
  grant (OnBucket b) grantReadWrite to.

(** ** [common-resources.ts] *)

Definition new_Table (scope id : string) (props : ddb.TableProps)
    : M ddb.Table :=
  addChild (child scope id) (Node.Table props) ;;
  mret {| ddb.tablePath := child scope id |}.

Definition new_Queue (scope id : string) (props : sqs.QueueProps)
    : M sqs.Queue :=
  addChild (child scope id) (Node.Queue props) ;;
  mret {| sqs.queuePath := child scope id |}.

Definition new_Alarm (scope id : string) (props : cw.AlarmProps)
    : M cw.Alarm :=
  addChild (child scope id) (Node.Alarm props) ;;
  mret {| cw.alarmPath := child scope id |}.

Definition new_Key (scope id : string) (props : kms.KeyProps) : M kms.Key :=
  addChild (child scope id) (Node.Key props) ;;
  mret {| kms.keyPath := child scope id |}.

Definition new_Topic (scope id : string) (props : sns.TopicProps)
    : M sns.Topic :=
  addChild (child scope id) (Node.Topic props) ;;
  mret {| sns.topicPath := child scope id |}.

Definition new_CfnOutput (scope id : string) (props : CfnOutputProps.t)
    : M unit :=
  addChild (child scope id) (Node.CfnOutput props).

(** [topic.addSubscription(new sub.EmailSubscription(address))] *)
Definition addSubscription (t : sns.Topic) (address : Token) : M unit :=
  modify (upd_subscriptions (push (t, address))).

(** [alarm.addAlarmAction(new actions.SnsAction(topic))] *)
Definition addAlarmAction (a : cw.Alarm) (t : sns.Topic) : M unit :=
  modify (upd_alarmActions (push (a, t))).

Record CommonStack := { jobTable : ddb.Table; sqsQueue : sqs.Queue }.

Definition S3TransferTable_props : ddb.TableProps :=
  {| ddb.partitionKey := {| ddb.name := "ObjectKey"; ddb.type := ddb.STRING |};
     ddb.billingMode := ddb.PAY_PER_REQUEST;
     ddb.removalPolicy := DESTROY;
     ddb.encryption := ddb.DEFAULT;
     ddb.pointInTimeRecovery := true |}.

Definition S3TransferQueueDLQ_props : sqs.QueueProps :=
  {| sqs.visibilityTimeout := Some (Duration.minutes 30);
     sqs.retentionPeriod := Some (Duration.days 14);
     sqs.encryption := Some sqs.KMS_MANAGED;
     sqs.deadLetterQueue := None |}.

Definition S3TransferQueue_props (sqsQueueDLQ : sqs.Queue) : sqs.QueueProps :=
  {| sqs.visibilityTimeout := Some (Duration.minutes 15);
     sqs.retentionPeriod := Some (Duration.days 14);
     sqs.encryption := None;
     sqs.deadLetterQueue :=
       Some {| sqs.queue := sqsQueueDLQ; sqs.maxReceiveCount := 5 |} |}.

Definition S3TransferDLQAlarm_props (sqsQueueDLQ : sqs.Queue) : cw.AlarmProps :=
  {| cw.metric := sqs.metricApproximateNumberOfMessagesVisible sqsQueueDLQ;
     cw.threshold := 0;
     cw.comparisonOperator := Some cw.GREATER_THAN_THRESHOLD;
     cw.evaluationPeriods := 1;
     cw.datapointsToAlarm := Some 1 |}.

Definition SNSTopicEncryptionKey_props : kms.KeyProps :=
  {| kms.enableKeyRotation := true;
     kms.enabled := true;
     kms.alias := Cat (Lit "alias/dth/sns/") Aws.STACK_NAME;
     kms.policy :=
       {| iam.assignSids := true;
          iam.statements :=
            [ {| iam.actions :=
                   [ "kms:GenerateDataKey*"; "kms:Decrypt"; "kms:Encrypt" ];
                 iam.resources := [ Lit "*" ];
                 iam.effect := Some iam.ALLOW;
                 iam.principals :=
                   [ iam.ServicePrincipal_ "sns.amazonaws.com";
                     iam.ServicePrincipal_ "cloudwatch.amazonaws.com" ] |} ]
       |} |}.

Definition S3TransferAlarmTopic_props (snsKey : kms.Key) : sns.TopicProps :=
  {| sns.masterKey := snsKey;
     sns.displayName :=
       Cat (Lit "Data Transfer Hub Alarm (") (Cat Aws.STACK_NAME (Lit ")")) |}.

Definition new_CommonStack (scope id : string) (props : CommonProps)
    : M CommonStack :=
  let this := child scope id in
  addChild this Node.Construct_ ;;

  (* Setup DynamoDB *)
  jobTable ← new_Table this "S3TransferTable" S3TransferTable_props ;

  let cfnJobTable := defaultChild (ddb.tablePath jobTable) in
  addCfnNagSuppressRules cfnJobTable
    [ {| id := "W74";
         reason := "Use deafult encryption. Encryption key owned by Amazon" |} ] ;;
  overrideLogicalId cfnJobTable "S3TransferTable" ;;

  (* Setup SQS *)
  sqsQueueDLQ ← new_Queue this "S3TransferQueueDLQ" S3TransferQueueDLQ_props ;

  let cfnSqsQueueDLQ := defaultChild (sqs.queuePath sqsQueueDLQ) in
  overrideLogicalId cfnSqsQueueDLQ "S3TransferQueueDLQ" ;;

  sqsQueue ← new_Queue this "S3TransferQueue"
    (S3TransferQueue_props sqsQueueDLQ) ;

  let cfnSqsQueue := defaultChild (sqs.queuePath sqsQueue) in
  overrideLogicalId cfnSqsQueue "S3TransferQueue" ;;
  addCfnNagSuppressRules cfnSqsQueue
    [ {| id := "W48"; reason := "No need to use encryption" |} ] ;;

  (* Setup Alarm for queue - DLQ *)
  alarmDLQ ← new_Alarm this "S3TransferDLQAlarm"
    (S3TransferDLQAlarm_props sqsQueueDLQ) ;

  snsKey ← new_Key this "SNSTopicEncryptionKey" SNSTopicEncryptionKey_props ;

  alarmTopic ← new_Topic this "S3TransferAlarmTopic"
    (S3TransferAlarmTopic_props snsKey) ;

  let cfnAlarmTopic := defaultChild (sns.topicPath alarmTopic) in
  overrideLogicalId cfnAlarmTopic "S3TransferAlarmTopic" ;;

  addSubscription alarmTopic (alarmEmail props) ;;
  addAlarmAction alarmDLQ alarmTopic ;;

  new_CfnOutput this "TableName"
    {| CfnOutputProps.value := ddb.tableName jobTable;
       CfnOutputProps.description := "DynamoDB Table Name" |} ;;

  new_CfnOutput this "QueueName"
    {| CfnOutputProps.value := sqs.queueName sqsQueue;
       CfnOutputProps.description := "Queue Name" |} ;;

  new_CfnOutput this "DLQQueueName"
    {| CfnOutputProps.value := sqs.queueName sqsQueueDLQ;
       CfnOutputProps.description := "Dead Letter Queue Name" |} ;;

  new_CfnOutput this "AlarmTopicName"
    {| CfnOutputProps.value := sns.topicName alarmTopic;
       CfnOutputProps.description := "Alarm Topic Name" |} ;;

  mret {| jobTable := jobTable; sqsQueue := sqsQueue |}.

(** ** [main-stack.ts] *)

Module RunType.
Definition EC2 : string := "EC2".
Definition LAMBDA : string := "Lambda".
End RunType.

Definition cliRelease : string := "1.0.0".

(** *** The parameter declarations *)

Definition String_parameter (description : string) (default : option string)
    (allowedValues : option (list string)) : CfnParameterProps.t :=
  {| CfnParameterProps.description := description;
     CfnParameterProps.type := String_;
     CfnParameterProps.default := default;
     CfnParameterProps.allowedValues := allowedValues;
     CfnParameterProps.allowedPattern := None |}.

Definition Number_parameter (description : string) (default : string)
    : CfnParameterProps.t :=
  {| CfnParameterProps.description := description;
     CfnParameterProps.type := Number;
     CfnParameterProps.default := Some default;
     CfnParameterProps.allowedValues := None;
     CfnParameterProps.allowedPattern := None |}.

Definition srcType_props := String_parameter
  "Choose type of source storage, including Amazon S3, Aliyun OSS, Qiniu Kodo, Tencent COS"
  (Some "Amazon_S3")
  (Some ["Amazon_S3"; "Aliyun_OSS"; "Qiniu_Kodo"; "Tencent_COS"]).

Definition srcBucket_props := String_parameter "Source Bucket Name" None None.

Definition srcPrefix_props := String_parameter
  "Source Prefix (Optional)" (Some EmptyString) None.

Definition srcRegion_props := String_parameter
  "Source Region Name" (Some EmptyString) None.

Definition srcEndpoint_props := String_parameter
  "Source Endpoint URL (Optional), leave blank unless you want to provide a custom Endpoint URL"
  (Some EmptyString) None.

Definition srcInCurrentAccount_props := String_parameter
  "Source Bucket in current account? If not, you should provide a credential with read access"
  (Some "false") (Some ["true"; "false"]).

Definition srcCredentials_props := String_parameter
  "The secret name in Secrets Manager used to keep AK/SK credentials for Source Bucket. Leave blank if source bucket is in current account or source is open data"
  (Some EmptyString) None.

Definition destBucket_props := String_parameter
  "Destination Bucket Name" None None.

Definition destPrefix_props := String_parameter
  "Destination Prefix (Optional)" (Some EmptyString) None.

Definition destRegion_props := String_parameter
  "Destination Region Name" (Some EmptyString) None.

Definition destInCurrentAccount_props := String_parameter
  "Destination Bucket in current account? If not, you should provide a credential with read and write access"
  (Some "true") (Some ["true"; "false"]).

Definition destCredentials_props := String_parameter
  "The secret name in Secrets Manager used to keep AK/SK credentials for Destination Bucket. Leave blank if desination bucket is in current account"
  (Some EmptyString) None.

Definition destStorageClass_props := String_parameter
  "Destination Storage Class, Default to STANDAD"
  (Some "STANDARD")
  (Some ["STANDARD"; "STANDARD_IA"; "ONEZONE_IA"; "INTELLIGENT_TIERING"]).

Definition destAcl_props := String_parameter
  "Destination Access Control List"
  (Some "bucket-owner-full-control")
  (Some ["private";
         "public-read";
         "public-read-write";
         "authenticated-read";
         "aws-exec-read";
         "bucket-owner-read";
         "bucket-owner-full-control"]).

Definition ecsClusterName_props := String_parameter
  "ECS Cluster Name to run ECS task (Please make sure the cluster exists)"
  (Some EmptyString) None.

Definition ecsVpcId_props : CfnParameterProps.t :=
  {| CfnParameterProps.description :=
       "VPC ID to run ECS task and EC2 instances, e.g. vpc-bef13dc7";
     CfnParameterProps.type := AWS_EC2_VPC_Id;
     CfnParameterProps.default := Some EmptyString;
     CfnParameterProps.allowedValues := None;
     CfnParameterProps.allowedPattern := None |}.

Definition ecsSubnets_props : CfnParameterProps.t :=
  {| CfnParameterProps.description :=
       "Subnet IDs to run ECS task and EC2 instances. Please provide two subnets at least delimited by comma, e.g. subnet-97bfc4cd,subnet-7ad7de32";
     CfnParameterProps.type := List_AWS_EC2_Subnet_Id;
     CfnParameterProps.default := Some EmptyString;
     CfnParameterProps.allowedValues := None;
     CfnParameterProps.allowedPattern := None |}.

(** [\w[-\w.+]*@([A-Za-z0-9][-A-Za-z0-9]+\.)+[A-Za-z]{2,14}] *)
Definition alarmEmail_pattern : Pattern :=
  {| pattern_text := "\w[-\w.+]*@([A-Za-z0-9][-A-Za-z0-9]+\.)+[A-Za-z]{2,14}";
     pattern_regex :=
       RSeq (RClass word)
      (RSeq (RStar (RClass (λ c, is_char "-" c || word c
                                 || is_char "." c || is_char "+" c)))
      (RSeq (RClass (is_char "@"))
      (RSeq (rplus (RSeq (RClass alnum)
                   (RSeq (rplus (RClass (λ c, is_char "-" c || alnum c)))
                         (RClass (is_char ".")))))
            (rrepeat 2 12 (RClass (λ c, upper c || lower c)))))) |}.

Definition alarmEmail_props : CfnParameterProps.t :=
  {| CfnParameterProps.description :=
       "Error notification will be sent to this email address";
     CfnParameterProps.type := String_;
     CfnParameterProps.default := None;
     CfnParameterProps.allowedValues := None;
     CfnParameterProps.allowedPattern := Some alarmEmail_pattern |}.

Definition includeMetadata_props := String_parameter
  "Add replication of object metadata, there will be additional API calls"
  (Some "true") (Some ["true"; "false"]).

Definition srcEvent_props := String_parameter
  "Whether to enable S3 Event to trigger the replication. Note that S3Event is only applicable if source is in Current account"
  (Some "No") (Some ["No"; "Create"; "CreateAndDelete"]).

Definition finderDepth_props := String_parameter
  "The depth of sub folders to compare in parallel. 0 means comparing all objects in sequence"
  (Some "0") None.

Definition finderNumber_props := String_parameter
  "The number of finder threads to run in parallel" (Some "1") None.

Definition workerNumber_props := String_parameter
  "The number of worker threads to run in one worker node/instance"
  (Some "4") None.

Definition maxCapacity_props := Number_parameter
  "Maximum Capacity for Auto Scaling Group" "20".

Definition minCapacity_props := Number_parameter
  "Minimum Capacity for Auto Scaling Group" "1".

Definition desiredCapacity_props := Number_parameter
  "Desired Capacity for Auto Scaling Group" "1".

(** *** The classes of the repository that [main-stack.ts] imports from
    files other than the two embedded here

    [ecs-finder-stack.ts], [ec2-worker-stack.ts], [dashboard-stack.ts] and
    [event-stack.ts] are parameters of the development: a [new] of one of
    their classes adds a node carrying the props it was given, and what
    the constructor of the stack depends on in them is kept abstract. *)
Record OtherSources := {
  (** the exception [new Ec2WorkerStack(scope, id, props)] throws on
      [props], if it throws one *)
  Ec2WorkerStack_throws : Ec2WorkerProps → option Error;
  (** whether [eventStack.nestedStackResource] is defined *)
  EventStack_nested : bool;
  (** [eventStack.templateFile] *)
  EventStack_templateFile : string;
}.

#[global] Instance CfnResource_eq_dec : EqDecision CfnResource.
Proof. solve_decision. Defined.

Definition new_CfnParameter (scope id : string) (props : CfnParameterProps.t)
    : M CfnParameter :=
  let p := {| logicalId := child scope id; parameterProps := props |} in
  modify (upd_parameters (push p)) ;;
  mret p.

Definition Secret_fromSecretNameV2 (scope id : string) (secretName : Token)
    : M sm.ISecret :=
  addChild (child scope id) (Node.Secret secretName) ;;
  mret {| sm.secretName := secretName;
          sm.secretArn :=
            Cat (Lit "arn:") (Cat Aws.PARTITION
           (Cat (Lit ":secretsmanager:") (Cat Aws.REGION
           (Cat (Lit ":") (Cat Aws.ACCOUNT_ID
           (Cat (Lit ":secret:") secretName)))))) |}.

Definition Bucket_fromBucketName (scope id : string) (bucketName : Token)
    : M s3.IBucket :=
  addChild (child scope id) (Node.Bucket bucketName) ;;
  mret {| s3.bucketName := bucketName |}.

Definition Vpc_fromVpcAttributes (scope id : string)
    (attrs : ec2.VpcAttributes) : M ec2.IVpc :=
  addChild (child scope id) (Node.Vpc attrs) ;;
  mret {| ec2.vpcAttributes := attrs |}.

Definition new_Policy (scope id : string) : M iam.Policy :=
  addChild (child scope id) Node.Policy ;;
  mret {| iam.policyPath := child scope id |}.

Definition new_EcsStack (scope id : string) (props : EcsTaskProps)
    : M EcsStack :=
  addChild (child scope id) (Node.EcsStack props) ;;
  mret {| taskDefinition :=
            {| taskRole :=
                 {| roleOf := child (child scope id) "taskDefinition/taskRole" |}
            |} |}.

Definition new_Ec2WorkerStack (others : OtherSources) (scope id : string)
    (props : Ec2WorkerProps) : M Ec2WorkerStack :=
  match Ec2WorkerStack_throws others props with
  | Some e => throw e
  | None =>
      addChild (child scope id) (Node.Ec2WorkerStack props) ;;
      mret {| workerAsg :=
                {| role :=
                     {| roleOf := child (child scope id) "workerAsg/role" |};
                   autoScalingGroupName :=
                     Ref (child (child scope id) "workerAsg") |} |}
  end.

Definition new_DashboardStack (scope id : string) (props : DBProps)
    : M unit :=
  addChild (child scope id) (Node.DashboardStack props).

Definition new_EventStack (others : OtherSources) (scope id : string)
    (props : EventProps) : M EventStack :=
  addChild (child scope id) (Node.EventStack props) ;;
  mret {| nestedStackResource :=
            if EventStack_nested others
            then Some {| resourcePath := defaultChild (child scope id) |}
            else None;
          templateFile := EventStack_templateFile others |}.

Definition new_CfnCondition (scope id : string) (props : CfnConditionProps)
    : M CfnCondition :=
  addChild (child scope id) (Node.CfnCondition props) ;;
  mret {| conditionId := child scope id |}.

(** [resource.cfnOptions.condition = c] *)
Definition set_cfnOptions_condition (r : CfnResource) (c : CfnCondition)
    : M unit :=
  modify (upd_resourceConditions
            (λ l, push (r, c) (filter (λ rc, rc.1 ≠ r) l))).

(** [x?.f(...)] *)
Definition optionally {A} (x : option A) (f : A → M unit) : M unit :=
  match x with
  | Some a => f a
  | None => mret ()
  end.

Definition addToParamGroups (label : string) (param : list string) : M unit :=
  modify (upd_paramGroups (push {| Label := label; Parameters := param |})).

Definition addToParamLabels (label param : string) : M unit :=
  modify (upd_paramLabels (λ labels, <[param := label]> labels)).

Definition DefaultPolicy_statements (commonStack : CommonStack)
    (srcCred destCred : sm.ISecret) : list iam.PolicyStatement :=
  [ {| iam.actions :=
         [ "dynamodb:BatchGetItem";
           "dynamodb:GetRecords";
           "dynamodb:GetShardIterator";
           "dynamodb:Query";
           "dynamodb:GetItem";
           "dynamodb:Scan";
           "dynamodb:ConditionCheckItem";
           "dynamodb:BatchWriteItem";
           "dynamodb:PutItem";
           "dynamodb:UpdateItem";
           "dynamodb:DeleteItem" ];
       iam.resources := [ ddb.tableArn (jobTable commonStack) ];
       iam.effect := None;
       iam.principals := [] |};
    {| iam.actions :=
         [ "secretsmanager:GetSecretValue";
           "secretsmanager:DescribeSecret" ];
       iam.resources :=
         [ Cat (sm.secretArn srcCred) (Lit "-??????");
           Cat (sm.secretArn destCred) (Lit "-??????") ];
       iam.effect := None;
       iam.principals := [] |} ].

Section Environments.
Variable commonStack : CommonStack.
Variables srcType srcBucket srcPrefix srcRegion srcEndpoint
  srcCredentials srcInCurrentAccount : CfnParameter.
Variables destBucket destPrefix destRegion destCredentials
  destInCurrentAccount destStorageClass destAcl : CfnParameter.
Variables finderDepth finderNumber workerNumber includeMetadata
  : CfnParameter.

Definition finderEnv : Env :=
  [ ("AWS_DEFAULT_REGION", Aws.REGION);
    ("JOB_TABLE_NAME", ddb.tableName (jobTable commonStack));
    ("JOB_QUEUE_NAME", sqs.queueName (sqsQueue commonStack));
    ("SOURCE_TYPE", valueAsString srcType);
    ("SRC_BUCKET", valueAsString srcBucket);
    ("SRC_PREFIX", valueAsString srcPrefix);
    ("SRC_REGION", valueAsString srcRegion);
    ("SRC_ENDPOINT", valueAsString srcEndpoint);
    ("SRC_CREDENTIALS", valueAsString srcCredentials);
    ("SRC_IN_CURRENT_ACCOUNT", valueAsString srcInCurrentAccount);

    ("DEST_BUCKET", valueAsString destBucket);
    ("DEST_PREFIX", valueAsString destPrefix);
    ("DEST_REGION", valueAsString destRegion);
    ("DEST_CREDENTIALS", valueAsString destCredentials);
    ("DEST_IN_CURRENT_ACCOUNT", valueAsString destInCurrentAccount);

    ("FINDER_DEPTH", valueAsString finderDepth);
    ("FINDER_NUMBER", valueAsString finderNumber) ].

Definition workerEnv : Env :=
  [ ("JOB_TABLE_NAME", ddb.tableName (jobTable commonStack));
    ("JOB_QUEUE_NAME", sqs.queueName (sqsQueue commonStack));
    ("SOURCE_TYPE", valueAsString srcType);

    ("SRC_BUCKET", valueAsString srcBucket);
    ("SRC_PREFIX", valueAsString srcPrefix);
    ("SRC_REGION", valueAsString srcRegion);
    ("SRC_ENDPOINT", valueAsString srcEndpoint);
    ("SRC_CREDENTIALS", valueAsString srcCredentials);
    ("SRC_IN_CURRENT_ACCOUNT", valueAsString srcInCurrentAccount);

    ("DEST_BUCKET", valueAsString destBucket);
    ("DEST_PREFIX", valueAsString destPrefix);
    ("DEST_REGION", valueAsString destRegion);
    ("DEST_CREDENTIALS", valueAsString destCredentials);
    ("DEST_IN_CURRENT_ACCOUNT", valueAsString destInCurrentAccount);
    ("DEST_STORAGE_CLASS", valueAsString destStorageClass);
    ("DEST_ACL", valueAsString destAcl);

    ("FINDER_DEPTH", valueAsString finderDepth);
    ("FINDER_NUMBER", valueAsString finderNumber);
    ("WORKER_NUMBER", valueAsString workerNumber);
    ("INCLUDE_METADATA", valueAsString includeMetadata) ].
End Environments.

(** The expression of the [UseS3Event] condition. *)
Definition UseS3Event_expression
    (srcInCurrentAccount srcType srcEvent : CfnParameter)
    : ICfnConditionExpression :=
  conditionAnd
    [ (* source in current account *)
      conditionEquals (Lit "true") (valueAsString srcInCurrentAccount);
      (* Source Type is Amazon S3 - Optional *)
      conditionEquals (Lit "Amazon_S3") (valueAsString srcType);
      (* Enable S3 Event is Yes *)
      conditionNot (conditionEquals (Lit "No") (valueAsString srcEvent)) ].

(** *** Main Stack *)

Section MainStack.
(** [process.env], the context of the app ([this.node.tryGetContext])
    and the other source files.  The context is read for [runType] only,
    which is compared to a string: its values are taken to be strings,
    as [cdk --context key=value] gives them. *)
Variable process_env : gmap string string.
Variable context : gmap string string.
Variable others : OtherSources.

Definition VERSION : option string := process_env !! "VERSION".

Definition tryGetContext (key : string) : option string := context !! key.

Definition runType : string := js_or (tryGetContext "runType") RunType.EC2.

Definition DataTransferS3Stack : M unit :=
  let this := EmptyString in

  srcType ← new_CfnParameter this "srcType" srcType_props ;
  addToParamLabels "Source Type" (logicalId srcType) ;;

  srcBucket ← new_CfnParameter this "srcBucket" srcBucket_props ;
  addToParamLabels "Source Bucket" (logicalId srcBucket) ;;

  srcPrefix ← new_CfnParameter this "srcPrefix" srcPrefix_props ;
  addToParamLabels "Source Prefix" (logicalId srcPrefix) ;;

  srcRegion ← new_CfnParameter this "srcRegion" srcRegion_props ;
  addToParamLabels "Source Region" (logicalId srcRegion) ;;

  srcEndpoint ← new_CfnParameter this "srcEndpoint" srcEndpoint_props ;
  addToParamLabels "Source Endpoint URL" (logicalId srcEndpoint) ;;

  srcInCurrentAccount ←
    new_CfnParameter this "srcInCurrentAccount" srcInCurrentAccount_props ;
  addToParamLabels "Source In Current Account"
    (logicalId srcInCurrentAccount) ;;

  srcCredentials ←
    new_CfnParameter this "srcCredentials" srcCredentials_props ;
  addToParamLabels "Source Credentials" (logicalId srcCredentials) ;;

  destBucket ← new_CfnParameter this "destBucket" destBucket_props ;
  addToParamLabels "Destination Bucket" (logicalId destBucket) ;;

  destPrefix ← new_CfnParameter this "destPrefix" destPrefix_props ;
  addToParamLabels "Destination Prefix" (logicalId destPrefix) ;;

  destRegion ← new_CfnParameter this "destRegion" destRegion_props ;
  addToParamLabels "Destination Region" (logicalId destRegion) ;;

  destInCurrentAccount ←
    new_CfnParameter this "destInCurrentAccount" destInCurrentAccount_props ;
  addToParamLabels "Destination In Current Account"
    (logicalId destInCurrentAccount) ;;

  destCredentials ←
    new_CfnParameter this "destCredentials" destCredentials_props ;
  addToParamLabels "Destination Credentials" (logicalId destCredentials) ;;

  destStorageClass ←
    new_CfnParameter this "destStorageClass" destStorageClass_props ;
  addToParamLabels "Destination Storage Class"
    (logicalId destStorageClass) ;;

  destAcl ← new_CfnParameter this "destAcl" destAcl_props ;
  addToParamLabels "Destination Access Control List" (logicalId destAcl) ;;

  ecsClusterName ←
    new_CfnParameter this "ecsClusterName" ecsClusterName_props ;
  addToParamLabels "ECS Cluster Name" (logicalId ecsClusterName) ;;

  ecsVpcId ← new_CfnParameter this "ecsVpcId" ecsVpcId_props ;
  addToParamLabels "VPC ID" (logicalId ecsVpcId) ;;

  ecsSubnets ← new_CfnParameter this "ecsSubnets" ecsSubnets_props ;
  addToParamLabels "Subnet IDs" (logicalId ecsSubnets) ;;

  alarmEmail ← new_CfnParameter this "alarmEmail" alarmEmail_props ;
  addToParamLabels "Alarm Email" (logicalId alarmEmail) ;;

  includeMetadata ←
    new_CfnParameter this "includeMetadata" includeMetadata_props ;

  addToParamLabels "Include Metadata" (logicalId includeMetadata) ;;

  srcEvent ← new_CfnParameter this "srcEvent" srcEvent_props ;
  addToParamLabels "Enable S3 Event" (logicalId srcEvent) ;;

  finderDepth ← new_CfnParameter this "finderDepth" finderDepth_props ;
  finderNumber ← new_CfnParameter this "finderNumber" finderNumber_props ;
  workerNumber ← new_CfnParameter this "workerNumber" workerNumber_props ;

  addToParamGroups "Source Information"
    [ logicalId srcType; logicalId srcBucket; logicalId srcPrefix;
      logicalId srcRegion; logicalId srcEndpoint;
      logicalId srcInCurrentAccount; logicalId srcCredentials;
      logicalId srcEvent ] ;;
  addToParamGroups "Destination Information"
    [ logicalId destBucket; logicalId destPrefix; logicalId destRegion;
      logicalId destInCurrentAccount; logicalId destCredentials;
      logicalId destStorageClass; logicalId destAcl ] ;;
  addToParamGroups "ECS Cluster Information" [ logicalId ecsClusterName ] ;;
  addToParamGroups "Network Information"
    [ logicalId ecsVpcId; logicalId ecsSubnets ] ;;
  addToParamGroups "Notification Information" [ logicalId alarmEmail ] ;;

  '(maxCapacity, minCapacity, desiredCapacity) ←
    (if decide (runType = RunType.EC2) then
       maxCapacity ← new_CfnParameter this "maxCapacity" maxCapacity_props ;
       addToParamLabels "Maximum Capacity" (logicalId maxCapacity) ;;

       minCapacity ← new_CfnParameter this "minCapacity" minCapacity_props ;
       addToParamLabels "Minimum Capacity" (logicalId minCapacity) ;;

       desiredCapacity ←
         new_CfnParameter this "desiredCapacity" desiredCapacity_props ;
       addToParamLabels "Desired Capacity" (logicalId desiredCapacity) ;;

       addToParamGroups "Advanced Options"
         [ logicalId finderDepth; logicalId finderNumber;
           logicalId workerNumber; logicalId includeMetadata;
           logicalId maxCapacity; logicalId minCapacity;
           logicalId desiredCapacity ] ;;

       mret (Some maxCapacity, Some minCapacity, Some desiredCapacity)
     else
       mret (None, None, None)) ;

  modify (set_templateDescription
    ("(SO8002) - Data Transfer Hub - S3 Plugin - Template version "
     +:+ interpolate VERSION)) ;;

  modify set_templateInterface ;;

  (* Get Secret for credentials from Secrets Manager *)
  srcCred ← Secret_fromSecretNameV2 this "SrcCredentialsParam"
    (valueAsString srcCredentials) ;
  destCred ← Secret_fromSecretNameV2 this "DestCredentialsParam"
    (valueAsString destCredentials) ;

  srcIBucket ← Bucket_fromBucketName this "SrcBucket"
    (valueAsString srcBucket) ;
  destIBucket ← Bucket_fromBucketName this "DestBucket"
    (valueAsString destBucket) ;

  (* Get VPC *)
  vpc ← Vpc_fromVpcAttributes this "ECSVpc"
    {| ec2.vpcId := valueAsString ecsVpcId;
       ec2.availabilityZones := FnGetAzs;
       ec2.publicSubnetIds := valueAsList ecsSubnets |} ;

  (* Start Common Stack *)
  let commonProps := {| alarmEmail := valueAsString alarmEmail |} in

  commonStack ← new_CommonStack this "Common" commonProps ;

  defaultPolicy ← new_Policy this "DefaultPolicy" ;

  addStatements defaultPolicy
    (DefaultPolicy_statements commonStack srcCred destCred) ;;

  (* Start Finder - ECS Stack *)
  let finderEnv :=
    finderEnv commonStack srcType srcBucket srcPrefix srcRegion srcEndpoint
      srcCredentials srcInCurrentAccount destBucket destPrefix destRegion
      destCredentials destInCurrentAccount finderDepth finderNumber in

  let ecsProps :=
    {| ecs_env := finderEnv;
       ecs_vpc := vpc;
       ecsSubnetIds := valueAsList ecsSubnets;
       ecsClusterName := valueAsString ecsClusterName;
       ecs_cliRelease := cliRelease |} in
  ecsStack ← new_EcsStack this "ECSStack" ecsProps ;

  attachInlinePolicy (taskRole (taskDefinition ecsStack)) defaultPolicy ;;
  Queue_grantSendMessages (sqsQueue commonStack)
    (taskRole (taskDefinition ecsStack)) ;;
  Bucket_grantRead srcIBucket (taskRole (taskDefinition ecsStack)) ;;
  Bucket_grantRead destIBucket (taskRole (taskDefinition ecsStack)) ;;

  let workerEnv :=
    workerEnv commonStack srcType srcBucket srcPrefix srcRegion srcEndpoint
      srcCredentials srcInCurrentAccount destBucket destPrefix destRegion
      destCredentials destInCurrentAccount destStorageClass destAcl
      finderDepth finderNumber workerNumber includeMetadata in

  asgName ←
    (if decide (runType = RunType.EC2) then
       let ec2Props :=
         {| ec2_env := workerEnv;
            ec2_vpc := vpc;
            ec2_queue := sqsQueue commonStack;
            maxCapacity := valueAsNumber <$> maxCapacity;
            minCapacity := valueAsNumber <$> minCapacity;
            desiredCapacity := valueAsNumber <$> desiredCapacity;
            ec2_cliRelease := cliRelease |} in

       ec2Stack ← new_Ec2WorkerStack others this "EC2WorkerStack" ec2Props ;

       attachInlinePolicy (role (workerAsg ec2Stack)) defaultPolicy ;;
       Queue_grantConsumeMessages (sqsQueue commonStack)
         (role (workerAsg ec2Stack)) ;;
       Bucket_grantRead srcIBucket (role (workerAsg ec2Stack)) ;;
       Bucket_grantReadWrite destIBucket (role (workerAsg ec2Stack)) ;;

       mret (Some (autoScalingGroupName (workerAsg ec2Stack)))
     else
       mret None) ;

  (* Setup Cloudwatch Dashboard *)
  let dbProps :=
    {| db_runType := runType;
       db_queue := sqsQueue commonStack;
       asgName := asgName |} in
  new_DashboardStack this "DashboardStack" dbProps ;;

  (* Set up event stack *)
  let eventProps :=
    {| events := valueAsString srcEvent;
       bucket := srcIBucket;
       prefix := valueAsString srcPrefix;
       event_queue := sqsQueue commonStack |} in
  eventStack ← new_EventStack others this "EventStack" eventProps ;
  optionally (nestedStackResource eventStack) (λ r,
    addMetadata (resourcePath r) "nestedTemplateName"
      (text (slice_0_neg 5 (templateFile eventStack)))) ;;
  optionally (nestedStackResource eventStack) (λ r,
    overrideLogicalId (resourcePath r) "EventStack") ;;

  let templateBucket :=
    js_or (process_env !! "TEMPLATE_OUTPUT_BUCKET") "aws-gcr-solutions" in
  optionally (nestedStackResource eventStack) (λ r,
    addMetadata (resourcePath r) "domain"
      (text ("https://" +:+ templateBucket +:+ ".s3.amazonaws.com"))) ;;

  useS3Event ← new_CfnCondition this "UseS3Event"
    {| expression :=
         UseS3Event_expression srcInCurrentAccount srcType srcEvent |} ;

  match nestedStackResource eventStack with
  | Some r => set_cfnOptions_condition r useS3Event
  | None => mret ()
  end.

(** The composition: the constructor run on an empty stack. *)
Definition compose : Outcome unit * Stack := DataTransferS3Stack emptyStack.

Definition composed : Stack := compose.2.
End MainStack.

(** ** Reading the composed stack *)

Definition nodeAt (path : string) (s : Stack) : option Node.t :=
  (list_to_map (children s) : gmap string Node.t) !! path.

Definition is_EcsStack (n : Node.t) : bool :=
  match n with Node.EcsStack _ => true | _ => false end.

Definition is_Ec2WorkerStack (n : Node.t) : bool :=
  match n with Node.Ec2WorkerStack _ => true | _ => false end.

(** The resources of the discovery task (the finder on ECS) are in the
    stack. *)
Definition discoveryInstantiated (s : Stack) : bool :=
  existsb (λ c, is_EcsStack c.2) (children s).

(** The resources of the worker fleet (the workers on EC2) are in the
    stack. *)
Definition fleetInstantiated (s : Stack) : bool :=
  existsb (λ c, is_Ec2WorkerStack c.2) (children s).

Definition declaredParameter (id : string) (s : Stack)
    : option CfnParameterProps.t :=
  parameterProps <$>
    head (filter (λ p : CfnParameter, logicalId p = id) (parameters s)).

#[global] Instance IRole_eq_dec : EqDecision IRole.
Proof. solve_decision. Defined.

(** What a role has been granted, in the order of the calls. *)
Definition grantsTo (r : IRole) (s : Stack)
    : list (GrantResource * GrantMethod) :=
  (λ g, (resource g, method g)) <$> filter (λ g, grantee g = r) (grants s).

Fixpoint condition_tokens (e : ICfnConditionExpression) : list Token :=
  match e with
  | conditionAnd cs => flat_map condition_tokens cs
  | conditionEquals a b => [a; b]
  | conditionNot c => condition_tokens c
  end.

Definition grant_tokens (g : Grant) : list Token :=
  match resource g with
  | OnQueue q => [ sqs.queueName q ]
  | OnBucket b => [ s3.bucketName b ]
  end.

(** The tokens in the props of a node. *)
Definition statement_tokens (st : iam.PolicyStatement) : list Token :=
  iam.resources st.

Definition node_tokens (n : Node.t) : list Token :=
  match n with
  | Node.Construct_ | Node.Table _ | Node.Queue _ | Node.Alarm _
  | Node.Policy => []
  | Node.Key props =>
      kms.alias props
      :: flat_map statement_tokens (iam.statements (kms.policy props))
  | Node.Topic props => [ sns.displayName props ]
  | Node.CfnOutput props => [ CfnOutputProps.value props ]
  | Node.Secret t => [ t ]
  | Node.Bucket t => [ t ]
  | Node.Vpc a =>
      [ ec2.vpcId a; ec2.availabilityZones a; ec2.publicSubnetIds a ]
  | Node.EcsStack props =>
      (ecs_env props).*2
      ++ [ ec2.vpcId (ec2.vpcAttributes (ecs_vpc props));
           ec2.availabilityZones (ec2.vpcAttributes (ecs_vpc props));
           ec2.publicSubnetIds (ec2.vpcAttributes (ecs_vpc props));
           ecsSubnetIds props; ecsClusterName props ]
  | Node.Ec2WorkerStack props =>
      (ec2_env props).*2
      ++ [ ec2.vpcId (ec2.vpcAttributes (ec2_vpc props));
           ec2.availabilityZones (ec2.vpcAttributes (ec2_vpc props));
           ec2.publicSubnetIds (ec2.vpcAttributes (ec2_vpc props));
           sqs.queueName (ec2_queue props) ]
      ++ option_list (maxCapacity props)
      ++ option_list (minCapacity props)
      ++ option_list (desiredCapacity props)
  | Node.DashboardStack props =>
      sqs.queueName (db_queue props) :: option_list (asgName props)
  | Node.EventStack props =>
      [ events props; s3.bucketName (bucket props); prefix props;
        sqs.queueName (event_queue props) ]
  | Node.CfnCondition props => condition_tokens (expression props)
  end.

(** The specification of a node as CloudFormation sees it at deployment:
    the node with its tokens resolved. *)
Definition resolvedSpecification (ρ : gmap string string) (n : Node.t)
    : Node.t * list string :=
  (n, resolve ρ <$> node_tokens n).

(** The condition attached to a resource, evaluated at deployment; a
    resource without a condition is always created. *)
Definition conditionOf (r : CfnResource) (s : Stack) : option CfnCondition :=
  snd <$> head (filter (λ rc, rc.1 = r) (resourceConditions s)).

Definition activated (ρ : gmap string string) (r : CfnResource) (s : Stack)
    : bool :=
  match conditionOf r s with
  | None => true
  | Some c =>
      match nodeAt (conditionId c) s with
      | Some (Node.CfnCondition props) => evalCondition ρ (expression props)
      | _ => false
      end
  end.

(** ** CloudFormation's side of a deployment *)

(** *** Parameter validation

    The values an operator supplies are strings by parameter name; a
    parameter without a supplied value takes its default.  A value is
    checked against what the declaration states: its type, its
    [allowedValues], its [allowedPattern].  The AWS-specific types demand
    that the ids exist in the account. *)

Record Account := { vpcs : list string; subnets : list string }.

Inductive Rule :=
| Required
| NumberExpected
| VpcExpected
| SubnetsExpected
| AllowedValues
| AllowedPattern.

Record ValidationError := { parameter : string; rule : Rule }.

(** The entries of a comma-delimited list. *)
Fixpoint commaDelimited (s : string) : list string :=
  match s with
  | EmptyString => [EmptyString]
  | String c s' =>
      if is_char "," c then EmptyString :: commaDelimited s'
      else match commaDelimited s' with
           | x :: xs => String c x :: xs
           | [] => [String c EmptyString]
           end
  end.

Fixpoint digits (acc : Z) (s : string) : option Z :=
  match s with
  | EmptyString => Some acc
  | String c s' =>
      if digit c
      then digits (10 * acc + (Z.of_nat (Ascii.nat_of_ascii c) - 48)) s'
      else None
  end.

(** Decimal integers; the fractional numbers CloudFormation also accepts
    for [Number] are outside this development. *)
Definition parseNumber (s : string) : option Z :=
  match s with
  | EmptyString => None
  | String c s' =>
      if is_char "-" c
      then match s' with
           | EmptyString => None
           | _ => Z.opp <$> digits 0 s'
           end
      else digits 0 s
  end.

Definition effectiveValue (values : gmap string string) (p : CfnParameter)
    : option string :=
  match values !! logicalId p with
  | Some v => Some v
  | None => CfnParameterProps.default (parameterProps p)
  end.

Definition typeViolations (account : Account) (t : ParameterType)
    (v : string) : list Rule :=
  match t with
  | String_ => []
  | Number => if parseNumber v is Some _ then [] else [NumberExpected]
  | AWS_EC2_VPC_Id =>
      if bool_decide (v ∈ vpcs account) then [] else [VpcExpected]
  | List_AWS_EC2_Subnet_Id =>
      if forallb (λ x, bool_decide (x ∈ subnets account)) (commaDelimited v)
      then [] else [SubnetsExpected]
  end.

Definition constraintViolations (props : CfnParameterProps.t) (v : string)
    : list Rule :=
  match CfnParameterProps.allowedValues props with
  | Some allowed => if bool_decide (v ∈ allowed) then [] else [AllowedValues]
  | None => []
  end
  ++
  match CfnParameterProps.allowedPattern props with
  | Some p => if matches (pattern_regex p) v then [] else [AllowedPattern]
  | None => []
  end.

Definition checkParameter (account : Account) (values : gmap string string)
    (p : CfnParameter) : list ValidationError :=
  (λ r, {| parameter := logicalId p; rule := r |}) <$>
  match effectiveValue values p with
  | None => [Required]
  | Some v =>
      typeViolations account (CfnParameterProps.type (parameterProps p)) v
      ++ constraintViolations (parameterProps p) v
  end.

(** Every violation of every declared parameter; validation succeeds
    when there is none. *)
Definition validate (account : Account) (values : gmap string string)
    (s : Stack) : list ValidationError :=
  flat_map (checkParameter account values) (parameters s).

(** *** Alarm evaluation

    The alarm is in the ALARM state when, of the datapoints of the last
    [evaluationPeriods] periods (most recent first), at least
    [datapointsToAlarm] breach the threshold. *)
Definition breaches (a : cw.AlarmProps) (x : Z) : bool :=
  match default cw.GREATER_THAN_OR_EQUAL_TO_THRESHOLD
          (cw.comparisonOperator a) with
  | cw.GREATER_THAN_OR_EQUAL_TO_THRESHOLD => bool_decide (cw.threshold a ≤ x)%Z
  | cw.GREATER_THAN_THRESHOLD => bool_decide (cw.threshold a < x)%Z
  | cw.LESS_THAN_THRESHOLD => bool_decide (x < cw.threshold a)%Z
  | cw.LESS_THAN_OR_EQUAL_TO_THRESHOLD => bool_decide (x ≤ cw.threshold a)%Z
  end.

Definition inAlarm (a : cw.AlarmProps) (datapoints : list Z) : bool :=
  let window := take (cw.evaluationPeriods a) datapoints in
  bool_decide
    (default (cw.evaluationPeriods a) (cw.datapointsToAlarm a)
     ≤ length (filter (λ x, breaches a x = true) window)).

(** ** What the constructor hands to the classes of the other files *)

Definition declared (id : string) (props : CfnParameterProps.t)
    : CfnParameter :=
  {| logicalId := id; parameterProps := props |}.

Definition composedCommonStack : CommonStack :=
  {| jobTable := {| ddb.tablePath := "Common/S3TransferTable" |};
     sqsQueue := {| sqs.queuePath := "Common/S3TransferQueue" |} |}.

Definition composedVpc : ec2.IVpc :=
  {| ec2.vpcAttributes :=
       {| ec2.vpcId := Ref "ecsVpcId";
          ec2.availabilityZones := FnGetAzs;
          ec2.publicSubnetIds := Ref "ecsSubnets" |} |}.

Definition composedFinderEnv : Env :=
  finderEnv composedCommonStack
    (declared "srcType" srcType_props)
    (declared "srcBucket" srcBucket_props)
    (declared "srcPrefix" srcPrefix_props)
    (declared "srcRegion" srcRegion_props)
    (declared "srcEndpoint" srcEndpoint_props)
    (declared "srcCredentials" srcCredentials_props)
    (declared "srcInCurrentAccount" srcInCurrentAccount_props)
    (declared "destBucket" destBucket_props)
    (declared "destPrefix" destPrefix_props)
    (declared "destRegion" destRegion_props)
    (declared "destCredentials" destCredentials_props)
    (declared "destInCurrentAccount" destInCurrentAccount_props)
    (declared "finderDepth" finderDepth_props)
    (declared "finderNumber" finderNumber_props).

Definition composedWorkerEnv : Env :=
  workerEnv composedCommonStack
    (declared "srcType" srcType_props)
    (declared "srcBucket" srcBucket_props)
    (declared "srcPrefix" srcPrefix_props)
    (declared "srcRegion" srcRegion_props)
    (declared "srcEndpoint" srcEndpoint_props)
    (declared "srcCredentials" srcCredentials_props)
    (declared "srcInCurrentAccount" srcInCurrentAccount_props)
    (declared "destBucket" destBucket_props)
    (declared "destPrefix" destPrefix_props)
    (declared "destRegion" destRegion_props)
    (declared "destCredentials" destCredentials_props)
    (declared "destInCurrentAccount" destInCurrentAccount_props)
    (declared "destStorageClass" destStorageClass_props)
    (declared "destAcl" destAcl_props)
    (declared "finderDepth" finderDepth_props)
    (declared "finderNumber" finderNumber_props)
    (declared "workerNumber" workerNumber_props)
    (declared "includeMetadata" includeMetadata_props).

(** The props of the one [new Ec2WorkerStack] of the constructor. *)
Definition composedFleetProps : Ec2WorkerProps :=
  {| ec2_env := composedWorkerEnv;
     ec2_vpc := composedVpc;
     ec2_queue := sqsQueue composedCommonStack;
     maxCapacity := Some (Ref "maxCapacity");
     minCapacity := Some (Ref "minCapacity");
     desiredCapacity := Some (Ref "desiredCapacity");
     ec2_cliRelease := cliRelease |}.

Definition composedEventProps : EventProps :=
  {| events := Ref "srcEvent";
     bucket := {| s3.bucketName := Ref "srcBucket" |};
     prefix := Ref "srcPrefix";
     event_queue := sqsQueue composedCommonStack |}.

Definition discoveryRole : IRole :=
  {| roleOf := "ECSStack/taskDefinition/taskRole" |}.

Definition workerRole : IRole :=
  {| roleOf := "EC2WorkerStack/workerAsg/role" |}.

(** Other source files for the examples: an [Ec2WorkerStack] whose
    constructor returns, an [EventStack] that is a nested stack. *)
Definition returning : OtherSources :=
  {| Ec2WorkerStack_throws := λ _, None;
     EventStack_nested := true;
     EventStack_templateFile := "EventStack.nested.template.json" |}.

#[global] Instance Error_eq_dec : EqDecision Error.
Proof. solve_decision. Defined.

Definition composedDLQ : sqs.Queue :=
  {| sqs.queuePath := "Common/S3TransferQueueDLQ" |}.

(** The encryption a queue is created with: unencrypted unless its props
    say otherwise. *)
Definition encryptionAtRest (props : sqs.QueueProps) : sqs.QueueEncryption :=
  default sqs.UNENCRYPTED (sqs.encryption props).

Definition composedAlarm : cw.Alarm :=
  {| cw.alarmPath := "Common/S3TransferDLQAlarm" |}.

Definition composedAlarmTopic : sns.Topic :=
  {| sns.topicPath := "Common/S3TransferAlarmTopic" |}.

Definition composedQueue : GrantResource :=
  OnQueue (sqsQueue composedCommonStack).
Definition sourceBucket : GrantResource :=
  OnBucket {| s3.bucketName := Ref "srcBucket" |}.
Definition destinationBucket : GrantResource :=
  OnBucket {| s3.bucketName := Ref "destBucket" |}.

#[global] Instance Token_eq_dec : EqDecision Token.
Proof.
  intros a b. unfold Decision.
  decide equality; apply String.string_dec.
Defined.

(** The names of the variables of an environment. *)
Definition variables (e : Env) : list string := fst <$> e.

Definition composedEcsProps : EcsTaskProps :=
  {| ecs_env := composedFinderEnv;
     ecs_vpc := composedVpc;
     ecsSubnetIds := Ref "ecsSubnets";
     ecsClusterName := Ref "ecsClusterName";
     ecs_cliRelease := cliRelease |}.

Definition violationsOf (id : string) (errors : list ValidationError)
    : list ValidationError :=
  filter (λ e, parameter e = id) errors.

Definition someAccount : Account :=
  {| vpcs := [ "vpc-bef13dc7" ];
     subnets := [ "subnet-97bfc4cd"; "subnet-7ad7de32" ] |}.

(** Values for the parameters without a usable default, with one subnet. *)
Definition oneSubnet : gmap string string :=
  list_to_map
    [ ("srcBucket", "source-bucket");
      ("destBucket", "destination-bucket");
      ("alarmEmail", "ops@example.com");
      ("ecsVpcId", "vpc-bef13dc7");
      ("ecsSubnets", "subnet-97bfc4cd") ].

(** The number a parameter set gives for a parameter of type Number. *)
Definition numberOf (values : gmap string string) (id : string) : option Z :=
  values !! id ≫= parseNumber.

(** The same values, with a minimum capacity of 5 and a maximum capacity
    of 2. *)
Definition fiveToTwo : gmap string string :=
  <["minCapacity" := "5"]> (<["maxCapacity" := "2"]> oneSubnet).

Definition eventResource : CfnResource :=
  {| resourcePath := "EventStack/Resource" |}.

Definition composedUseS3Event : ICfnConditionExpression :=
  UseS3Event_expression
    (declared "srcInCurrentAccount" srcInCurrentAccount_props)
    (declared "srcType" srcType_props)
    (declared "srcEvent" srcEvent_props).

(** Whether resolving one of the tokens reads the value [x]. *)
Definition reads (x : string) (ts : list Token) : bool :=
  existsb (λ t, bool_decide (x ∈ token_keys t)) ts.

(** The tokens of what is attached to the nodes after their creation:
    policy statements, subscriptions, grants. *)
Definition attachedTokens (s : Stack) : list Token :=
  flat_map statement_tokens (snd <$> policyStatements s)
  ++ (snd <$> subscriptions s)
  ++ flat_map grant_tokens (grants s).

(** No node other than the event stack and its condition reads [x]. *)
Definition othersUnaffectedBy (x : string) (s : Stack) : bool :=
  forallb (λ c, bool_decide (c.1 = "EventStack")
                || bool_decide (c.1 = "UseS3Event")
                || negb (reads x (node_tokens c.2)))
    (children s)
  && negb (reads x (attachedTokens s)).

(** ** Further readings of the composed stack *)

Definition declaredIds (s : Stack) : list string :=
  logicalId <$> parameters s.

(** The parameters listed in the groups, in the order of the groups. *)
Definition groupedIds (s : Stack) : list string :=
  flat_map Parameters (paramGroups s).

Definition hasNoDefault (p : CfnParameter) : bool :=
  match CfnParameterProps.default (parameterProps p) with
  | None => true
  | Some _ => false
  end.

(** The defaults of the declared parameters, by parameter name. *)
Definition defaultValues (s : Stack) : gmap string string :=
  list_to_map
    (omap (λ p, pair (logicalId p)
                  <$> CfnParameterProps.default (parameterProps p))
       (parameters s)).

(** The values the parameters have at deployment: the supplied ones, and
    the defaults for the others. *)
Definition deploymentValues (values : gmap string string) (s : Stack)
    : gmap string string :=
  values ∪ defaultValues s.

(** The default of a parameter passes the checks of its own
    declaration. *)
Definition defaultIsAccepted (p : CfnParameter) : bool :=
  match CfnParameterProps.default (parameterProps p) with
  | None => true
  | Some d =>
      match constraintViolations (parameterProps p) d,
            CfnParameterProps.type (parameterProps p) with
      | [], Number => if parseNumber d is Some _ then true else false
      | [], _ => true
      | _ :: _, _ => false
      end
  end.

(** A parameter of type [String] with a default and neither
    [allowedValues] nor [allowedPattern]. *)
Definition unconstrained (p : CfnParameter) : bool :=
  match CfnParameterProps.type (parameterProps p),
        CfnParameterProps.default (parameterProps p),
        CfnParameterProps.allowedValues (parameterProps p),
        CfnParameterProps.allowedPattern (parameterProps p) with
  | String_, Some _, None, None => true
  | _, _, _, _ => false
  end.

(** The logical ids and paths a token refers to. *)
Fixpoint token_ids (t : Token) : list string :=
  match t with
  | Lit _ => []
  | Ref x => [x]
  | GetAtt x _ => [x]
  | Cat a b => token_ids a ++ token_ids b
  | FnGetAzs => []
  end.

Definition pseudoParameters : list string :=
  [ "AWS::Region"; "AWS::StackName"; "AWS::AccountId"; "AWS::Partition" ].

(** A reference resolves in a stack when it names a declared parameter,
    a pseudo parameter, or something below a node of the tree. *)
Definition referenceResolves (s : Stack) (x : string) : bool :=
  bool_decide (x ∈ declaredIds s)
  || bool_decide (x ∈ pseudoParameters)
  || existsb (λ c, String.prefix (c.1 +:+ "/") x) (children s).

Definition allTokens (s : Stack) : list Token :=
  flat_map (λ c, node_tokens c.2) (children s) ++ attachedTokens s.

Definition referencesResolve (s : Stack) : bool :=
  forallb (λ t, forallb (referenceResolves s) (token_ids t)) (allTokens s).

#[global] Instance Queue_eq_dec : EqDecision sqs.Queue.
Proof. solve_decision. Defined.

Definition is_Queue (n : Node.t) : bool :=
  match n with Node.Queue _ => true | _ => false end.
Definition is_Alarm (n : Node.t) : bool :=
  match n with Node.Alarm _ => true | _ => false end.
Definition is_Key (n : Node.t) : bool :=
  match n with Node.Key _ => true | _ => false end.
Definition is_Topic (n : Node.t) : bool :=
  match n with Node.Topic _ => true | _ => false end.
Definition is_Policy (n : Node.t) : bool :=
  match n with Node.Policy => true | _ => false end.
Definition is_CfnCondition (n : Node.t) : bool :=
  match n with Node.CfnCondition _ => true | _ => false end.
Definition is_DashboardStack (n : Node.t) : bool :=
  match n with Node.DashboardStack _ => true | _ => false end.
Definition is_EventStack (n : Node.t) : bool :=
  match n with Node.EventStack _ => true | _ => false end.

(** The node at a path is of the given kind. *)
Definition nodeIs (kind : Node.t → bool) (path : string) (s : Stack) : bool :=
  match nodeAt path s with
  | Some n => kind n
  | None => false
  end.

(** The queues the props of a node hold. *)
Definition node_queues (n : Node.t) : list sqs.Queue :=
  match n with
  | Node.Queue props =>
      match sqs.deadLetterQueue props with
      | Some d => [ sqs.queue d ]
      | None => []
      end
  | Node.Alarm props => [ sqs.ofQueue (cw.metric props) ]
  | Node.Ec2WorkerStack props => [ ec2_queue props ]
  | Node.DashboardStack props => [ db_queue props ]
  | Node.EventStack props => [ event_queue props ]
  | _ => []
  end.

(** Every handle of a construct held anywhere in the stack (a queue, a
    key, a bucket, a policy, a topic, an alarm, a condition) is the
    handle of a node of the tree, of the kind the holder expects.  The
    Cfn resources that [addMetadata], [overrideLogicalId] and
    [cfnOptions.condition] act on are not nodes of this tree and are not
    checked here. *)
Definition wellFormed (s : Stack) : bool :=
  forallb (λ c,
      forallb (λ q, nodeIs is_Queue (sqs.queuePath q) s) (node_queues c.2)
      && match c.2 with
         | Node.Topic props =>
             nodeIs is_Key (kms.keyPath (sns.masterKey props)) s
         | _ => true
         end)
    (children s)
  && forallb (λ g,
        match resource g with
        | OnQueue q => nodeIs is_Queue (sqs.queuePath q) s
        | OnBucket b =>
            existsb (λ c, match c.2 with
                          | Node.Bucket t => bool_decide (t = s3.bucketName b)
                          | _ => false
                          end) (children s)
        end)
       (grants s)
  && forallb (λ ps, nodeIs is_Policy (iam.policyPath ps.1) s)
       (policyStatements s)
  && forallb (λ rp, nodeIs is_Policy (iam.policyPath rp.2) s)
       (inlinePolicies s)
  && forallb (λ ts, nodeIs is_Topic (sns.topicPath ts.1) s) (subscriptions s)
  && forallb (λ a, nodeIs is_Alarm (cw.alarmPath a.1) s
                   && nodeIs is_Topic (sns.topicPath a.2) s)
       (alarmActions s)
  && forallb (λ rc, nodeIs is_CfnCondition (conditionId rc.2) s)
       (resourceConditions s).

#[global] Instance GrantMethod_eq_dec : EqDecision GrantMethod.
Proof. solve_decision. Defined.
#[global] Instance IBucket_eq_dec : EqDecision s3.IBucket.
Proof. solve_decision. Defined.
#[global] Instance GrantResource_eq_dec : EqDecision GrantResource.
Proof. solve_decision. Defined.
#[global] Instance Grant_eq_dec : EqDecision Grant.
Proof. solve_decision. Defined.
#[global] Instance Policy_eq_dec : EqDecision iam.Policy.
Proof. solve_decision. Defined.

(** The environment a node hands to its process. *)
Definition nodeEnv (n : Node.t) : Env :=
  match n with
  | Node.EcsStack props => ecs_env props
  | Node.Ec2WorkerStack props => ec2_env props
  | _ => []
  end.

Definition envLookup (variable : string) (e : Env) : option Token :=
  (list_to_map e : gmap string Token) !! variable.

Definition composedPolicy : iam.Policy :=
  {| iam.policyPath := "DefaultPolicy" |}.

(** [arn:<partition>:secretsmanager:<region>:<account>:secret:<name>-??????] *)
Definition secretArnPattern (ρ : gmap string string) (name : string)
    : string :=
  "arn:" +:+ resolve ρ Aws.PARTITION +:+ ":secretsmanager:"
  +:+ resolve ρ Aws.REGION +:+ ":" +:+ resolve ρ Aws.ACCOUNT_ID
  +:+ ":secret:" +:+ name +:+ "-??????".

(** Other source files in which the constructor of the fleet throws. *)
Definition throwing : OtherSources :=
  {| Ec2WorkerStack_throws := λ _, Some (Error_ "no capacity");
     EventStack_nested := true;
     EventStack_templateFile := "EventStack.nested.template.json" |}.

Definition lambdaContext : gmap string string :=
  {[ "runType" := RunType.LAMBDA ]}.

(** ** The parameter catalogue of a composition, by runtime mode *)

Definition baseParameters : list CfnParameter :=
  [ declared "srcType" srcType_props;
    declared "srcBucket" srcBucket_props;
    declared "srcPrefix" srcPrefix_props;
    declared "srcRegion" srcRegion_props;
    declared "srcEndpoint" srcEndpoint_props;
    declared "srcInCurrentAccount" srcInCurrentAccount_props;
    declared "srcCredentials" srcCredentials_props;
    declared "destBucket" destBucket_props;
    declared "destPrefix" destPrefix_props;
    declared "destRegion" destRegion_props;
    declared "destInCurrentAccount" destInCurrentAccount_props;
    declared "destCredentials" destCredentials_props;
    declared "destStorageClass" destStorageClass_props;
    declared "destAcl" destAcl_props;
    declared "ecsClusterName" ecsClusterName_props;
    declared "ecsVpcId" ecsVpcId_props;
    declared "ecsSubnets" ecsSubnets_props;
    declared "alarmEmail" alarmEmail_props;
    declared "includeMetadata" includeMetadata_props;
    declared "srcEvent" srcEvent_props;
    declared "finderDepth" finderDepth_props;
    declared "finderNumber" finderNumber_props;
    declared "workerNumber" workerNumber_props ].

Definition capacityParameters : list CfnParameter :=
  [ declared "maxCapacity" maxCapacity_props;
    declared "minCapacity" minCapacity_props;
    declared "desiredCapacity" desiredCapacity_props ].

Definition parametersFor (mode : string) : list CfnParameter :=
  baseParameters
  ++ (if bool_decide (mode = RunType.EC2) then capacityParameters else []).

Definition groupsFor (mode : string) : list ParamGroup :=
  [ {| Label := "Source Information";
       Parameters := [ "srcType"; "srcBucket"; "srcPrefix"; "srcRegion";
                       "srcEndpoint"; "srcInCurrentAccount";
                       "srcCredentials"; "srcEvent" ] |};
    {| Label := "Destination Information";
       Parameters := [ "destBucket"; "destPrefix"; "destRegion";
                       "destInCurrentAccount"; "destCredentials";
                       "destStorageClass"; "destAcl" ] |};
    {| Label := "ECS Cluster Information";
       Parameters := [ "ecsClusterName" ] |};
    {| Label := "Network Information";
       Parameters := [ "ecsVpcId"; "ecsSubnets" ] |};
    {| Label := "Notification Information";
       Parameters := [ "alarmEmail" ] |} ]
  ++ (if bool_decide (mode = RunType.EC2)
      then [ {| Label := "Advanced Options";
                Parameters := [ "finderDepth"; "finderNumber";
                                "workerNumber"; "includeMetadata";
                                "maxCapacity"; "minCapacity";
                                "desiredCapacity" ] |} ]
      else []).

(** The [addToParamLabels] calls, in order: parameter and label. *)
Definition labelsFor (mode : string) : list (string * string) :=
  [ ("srcType", "Source Type");
    ("srcBucket", "Source Bucket");
    ("srcPrefix", "Source Prefix");
    ("srcRegion", "Source Region");
    ("srcEndpoint", "Source Endpoint URL");
    ("srcInCurrentAccount", "Source In Current Account");
    ("srcCredentials", "Source Credentials");
    ("destBucket", "Destination Bucket");
    ("destPrefix", "Destination Prefix");
    ("destRegion", "Destination Region");
    ("destInCurrentAccount", "Destination In Current Account");
    ("destCredentials", "Destination Credentials");
    ("destStorageClass", "Destination Storage Class");
    ("destAcl", "Destination Access Control List");
    ("ecsClusterName", "ECS Cluster Name");
    ("ecsVpcId", "VPC ID");
    ("ecsSubnets", "Subnet IDs");
    ("alarmEmail", "Alarm Email");
    ("includeMetadata", "Include Metadata");
    ("srcEvent", "Enable S3 Event") ]
  ++ (if bool_decide (mode = RunType.EC2)
      then [ ("maxCapacity", "Maximum Capacity");
             ("minCapacity", "Minimum Capacity");
             ("desiredCapacity", "Desired Capacity") ]
      else []).

(** The labels after a sequence of [addToParamLabels] calls. *)
Definition labelled (calls : list (string * string))
    (labels : gmap string string) : gmap string string :=
  foldl (λ m call, <[call.1 := call.2]> m) labels calls.

#[global] Instance Rule_eq_dec : EqDecision Rule.
Proof. solve_decision. Defined.

(** ** The language of a regular expression *)

Inductive Lang : Regex → string → Prop :=
| Lang_eps : Lang REps EmptyString
| Lang_class f c : f c = true → Lang (RClass f) (String c EmptyString)
| Lang_seq r1 r2 s1 s2 :
    Lang r1 s1 → Lang r2 s2 → Lang (RSeq r1 r2) (s1 +:+ s2)
| Lang_alt_l r1 r2 s : Lang r1 s → Lang (RAlt r1 r2) s
| Lang_alt_r r1 r2 s : Lang r2 s → Lang (RAlt r1 r2) s
| Lang_star_nil r : Lang (RStar r) EmptyString
| Lang_star_cons r s1 s2 :
    Lang r s1 → Lang (RStar r) s2 → Lang (RStar r) (s1 +:+ s2).

(** Every character of the string is in the class. *)
Fixpoint allChars (f : Ascii.ascii → bool) (s : string) : bool :=
  match s with
  | EmptyString => true
  | String c s => f c && allChars f s
  end.

(** How many times the character occurs in the string. *)
Fixpoint occurrences (x : string) (s : string) : nat :=
  match s with
  | EmptyString => 0
  | String c s => (if is_char x c then 1 else 0) + occurrences x s
  end.

(** The classes of the pattern of [alarmEmail]: [[-\w.+]], [[-A-Za-z0-9]]
    with the dot between labels, and [[A-Za-z]]. *)
Definition localChar (c : Ascii.ascii) : bool :=
  is_char "-" c || word c || is_char "." c || is_char "+" c.
Definition hostChar (c : Ascii.ascii) : bool :=
  is_char "-" c || alnum c || is_char "." c.
Definition letter (c : Ascii.ascii) : bool := upper c || lower c.

(** What the pattern of [alarmEmail] demands of an address:
    [local@host.tld]. *)
Definition emailShape (v : string) : Prop :=
  ∃ local host tld,
    v = local +:+ "@" +:+ host +:+ "." +:+ tld
    ∧ local ≠ EmptyString
    ∧ allChars localChar local = true
    ∧ allChars hostChar host = true
    ∧ 2 ≤ String.length host
    ∧ allChars letter tld = true
    ∧ 2 ≤ String.length tld ≤ 14.

(** ** When [new CommonStack] constructs *)




(** * Properties of the composition *)

(** The constructor of the stack calls the constructor of
    [Ec2WorkerStack] on [composedFleetProps] only. *)
Lemma compose_fleetProps pe ctx throws nested file :
  compose pe ctx
    {| Ec2WorkerStack_throws := throws;
       EventStack_nested := nested;
       EventStack_templateFile := file |}
  = compose pe ctx
      {| Ec2WorkerStack_throws := λ _, throws composedFleetProps;
         EventStack_nested := nested;
         EventStack_templateFile := file |}.
Proof.
  unfold compose, DataTransferS3Stack.
  destruct (decide (runType ctx = RunType.EC2)); reflexivity.
Qed.

(** Case analysis on what the composition depends on: the runtime mode,
    whether the fleet's constructor throws, whether the event stack is
    nested.  Each case is left as a computation on a stack that is known
    but for three strings. *)
Ltac compose_cases pe ctx o :=
  let throws := fresh "throws" in
  let nested := fresh "nested" in
  let file := fresh "file" in
  let Hrt := fresh "Hrt" in
  let Hthrows := fresh "Hthrows" in
  destruct o as [throws nested file];
  unfold composed; rewrite ?(compose_fleetProps pe ctx throws nested file);
  cbn [Ec2WorkerStack_throws EventStack_nested EventStack_templateFile];
  destruct (throws composedFleetProps) eqn:Hthrows;
  destruct nested;
  unfold compose, DataTransferS3Stack;
  (destruct (decide (runType ctx = RunType.EC2)) as [Hrt|Hrt]);
  revert Hrt;
  generalize (runType ctx) (interpolate (VERSION pe))
    (js_or (pe !! "TEMPLATE_OUTPUT_BUCKET") "aws-gcr-solutions");
  intros ? ? ? Hrt.

(** ** C1: which compute branches a composition instantiates *)

(** C1, as stated, fails: with no runtime mode in the context (the mode
    is then EC2) the composition completes with the resources of both
    compute branches, the discovery task's and the worker fleet's. *)
Lemma both_branches_by_default :
  (compose ∅ ∅ returning).1 = Returned ()
  ∧ discoveryInstantiated (composed ∅ ∅ returning) = true
  ∧ fleetInstantiated (composed ∅ ∅ returning) = true.
Proof. vm_compute. done. Qed.

(** C1, amended: the resources of the discovery task are instantiated in
    every composition, whatever the runtime mode; those of the worker
    fleet are instantiated exactly when the mode is EC2 and the fleet's
    constructor does not throw.  So no composition has zero compute
    branches, a composition in EC2 mode has both, and one in any other
    mode has the discovery branch only. *)
Theorem compute_branches pe ctx o :
  discoveryInstantiated (composed pe ctx o) = true
  ∧ fleetInstantiated (composed pe ctx o)
    = bool_decide (runType ctx = RunType.EC2)
      && bool_decide (Ec2WorkerStack_throws o composedFleetProps = None).
Proof.
  compose_cases pe ctx o.
  all: rewrite ?(bool_decide_eq_true_2 _ Hrt), ?(bool_decide_eq_false_2 _ Hrt).
  all: vm_compute; done.
Qed.

(** ** C9: the default runtime mode *)

(** C9: with no [runType] in the context the mode is EC2: the three
    capacity parameters are declared, and, the constructor of the fleet
    returning, the composition completes with the worker fleet built
    and its Auto Scaling group name handed to the dashboard. *)
Theorem default_mode_is_fleet pe ctx o :
  tryGetContext ctx "runType" = None →
  Ec2WorkerStack_throws o composedFleetProps = None →
  runType ctx = RunType.EC2
  ∧ (compose pe ctx o).1 = Returned ()
  ∧ declaredParameter "maxCapacity" (composed pe ctx o)
    = Some maxCapacity_props
  ∧ declaredParameter "minCapacity" (composed pe ctx o)
    = Some minCapacity_props
  ∧ declaredParameter "desiredCapacity" (composed pe ctx o)
    = Some desiredCapacity_props
  ∧ nodeAt "EC2WorkerStack" (composed pe ctx o)
    = Some (Node.Ec2WorkerStack composedFleetProps)
  ∧ nodeAt "DashboardStack" (composed pe ctx o)
    = Some (Node.DashboardStack
              {| db_runType := RunType.EC2;
                 db_queue := sqsQueue composedCommonStack;
                 asgName := Some (Ref "EC2WorkerStack/workerAsg") |}).
Proof.
  intros Hctx Hfleet.
  assert (runType ctx = RunType.EC2) as Hmode.
  { unfold runType. by rewrite Hctx. }
  split; [done|].
  revert Hmode Hfleet. compose_cases pe ctx o; intros Hmode Hfleet; try done.
  all: subst; vm_compute; done.
Qed.

Lemma default_mode_is_fleet_witness :
  runType ∅ = RunType.EC2
  ∧ (compose ∅ ∅ returning).1 = Returned ()
  ∧ declaredParameter "maxCapacity" (composed ∅ ∅ returning)
    = Some maxCapacity_props
  ∧ declaredParameter "minCapacity" (composed ∅ ∅ returning)
    = Some minCapacity_props
  ∧ declaredParameter "desiredCapacity" (composed ∅ ∅ returning)
    = Some desiredCapacity_props
  ∧ nodeAt "EC2WorkerStack" (composed ∅ ∅ returning)
    = Some (Node.Ec2WorkerStack composedFleetProps)
  ∧ nodeAt "DashboardStack" (composed ∅ ∅ returning)
    = Some (Node.DashboardStack
              {| db_runType := RunType.EC2;
                 db_queue := sqsQueue composedCommonStack;
                 asgName := Some (Ref "EC2WorkerStack/workerAsg") |}).
Proof.
  apply (default_mode_is_fleet ∅ ∅ returning); reflexivity.
Defined.

(** ** C10: the two queues *)

(** C10: in every composition the dead-letter queue is created with
    KMS-managed encryption and the work queue without encryption, and
    both retain messages for 14 days. *)
Theorem queues_encryption_and_retention pe ctx o :
  ∃ dlq queue,
    nodeAt "Common/S3TransferQueueDLQ" (composed pe ctx o)
    = Some (Node.Queue dlq)
    ∧ nodeAt "Common/S3TransferQueue" (composed pe ctx o)
      = Some (Node.Queue queue)
    ∧ sqs.encryption dlq = Some sqs.KMS_MANAGED
    ∧ sqs.encryption queue = None
    ∧ encryptionAtRest queue = sqs.UNENCRYPTED
    ∧ sqs.retentionPeriod queue = Some (Duration.days 14)
    ∧ sqs.retentionPeriod queue = sqs.retentionPeriod dlq
    ∧ sqs.deadLetterQueue queue
      = Some {| sqs.queue := composedDLQ; sqs.maxReceiveCount := 5 |}.
Proof.
  exists S3TransferQueueDLQ_props, (S3TransferQueue_props composedDLQ).
  compose_cases pe ctx o; vm_compute; done.
Qed.

(** ** C4: the alarm on the dead-letter queue *)

Lemma DLQ_alarm_fires_iff_positive (dlq : sqs.Queue) (count : Z)
    (earlier : list Z) :
  inAlarm (S3TransferDLQAlarm_props dlq) (count :: earlier) = true
  ↔ (0 < count)%Z.
Proof.
  unfold inAlarm, breaches. cbn.
  rewrite take_0, bool_decide_eq_true.
  destruct (decide (bool_decide (0 < count)%Z = true)) as [H|H]; cbn.
  - apply bool_decide_eq_true in H. split; [done | lia].
  - split; [lia|]. intros Hpos. destruct H. by apply bool_decide_eq_true.
Qed.

(** C4: the alarm of every composition watches the number of visible
    messages of the dead-letter queue with threshold 0, the comparison
    "greater than threshold" and one evaluation period; so it is in alarm
    exactly when the count of the last period exceeds 0, never at a count
    of 0, and it notifies the alarm topic. *)
Theorem DLQ_alarm_zero_tolerance pe ctx o :
  ∃ props,
    nodeAt "Common/S3TransferDLQAlarm" (composed pe ctx o)
    = Some (Node.Alarm props)
    ∧ cw.metric props
      = sqs.metricApproximateNumberOfMessagesVisible composedDLQ
    ∧ cw.threshold props = 0%Z
    ∧ cw.comparisonOperator props = Some cw.GREATER_THAN_THRESHOLD
    ∧ cw.evaluationPeriods props = 1
    ∧ cw.datapointsToAlarm props = Some 1
    ∧ (∀ count earlier,
         inAlarm props (count :: earlier) = true ↔ (0 < count)%Z)
    ∧ (∀ earlier, inAlarm props (0%Z :: earlier) = false)
    ∧ alarmActions (composed pe ctx o)
      = [ (composedAlarm, composedAlarmTopic) ].
Proof.
  exists (S3TransferDLQAlarm_props composedDLQ).
  split; [|split_and!; try done].
  - compose_cases pe ctx o; vm_compute; done.
  - apply DLQ_alarm_fires_iff_positive.
  - compose_cases pe ctx o; vm_compute; done.
Qed.

(** ** C5: the grants of the two compute roles *)

Lemma grantsTo_other (a b r : IRole) (s : Stack) :
  Forall (λ g, grantee g = a ∨ grantee g = b) (grants s) →
  r ≠ a → r ≠ b → grantsTo r s = [].
Proof.
  unfold grantsTo. intros Hall Ha Hb.
  induction Hall as [|g gs [Hg|Hg] _ IH]; [done| |].
  all: by rewrite filter_cons_False; [|congruence].
Qed.

(** C5: in every composition the discovery role is granted exactly: send
    on the queue, read on the source bucket, read on the destination
    bucket; the worker role, in the compositions that have one, exactly:
    consume on the queue, read on the source bucket, read-write on the
    destination bucket; and no other role is granted anything.  So no
    role has both send and consume on the queue. *)
Theorem grants_are_asymmetric pe ctx o :
  grantsTo discoveryRole (composed pe ctx o)
  = [ (composedQueue, grantSendMessages);
      (sourceBucket, grantRead);
      (destinationBucket, grantRead) ]
  ∧ grantsTo workerRole (composed pe ctx o)
    = (if fleetInstantiated (composed pe ctx o)
       then [ (composedQueue, grantConsumeMessages);
              (sourceBucket, grantRead);
              (destinationBucket, grantReadWrite) ]
       else [])
  ∧ Forall (λ g, grantee g = discoveryRole ∨ grantee g = workerRole)
      (grants (composed pe ctx o))
  ∧ ∀ r, ¬ ((composedQueue, grantSendMessages)
              ∈ grantsTo r (composed pe ctx o)
            ∧ (composedQueue, grantConsumeMessages)
              ∈ grantsTo r (composed pe ctx o)).
Proof.
  assert (grantsTo discoveryRole (composed pe ctx o)
          = [ (composedQueue, grantSendMessages);
              (sourceBucket, grantRead);
              (destinationBucket, grantRead) ]) as Hdiscovery.
  { compose_cases pe ctx o; vm_compute; done. }
  assert (grantsTo workerRole (composed pe ctx o)
          = (if fleetInstantiated (composed pe ctx o)
             then [ (composedQueue, grantConsumeMessages);
                    (sourceBucket, grantRead);
                    (destinationBucket, grantReadWrite) ]
             else [])) as Hworker.
  { compose_cases pe ctx o; vm_compute; done. }
  assert (Forall (λ g, grantee g = discoveryRole ∨ grantee g = workerRole)
            (grants (composed pe ctx o))) as Hall.
  { apply Forall_forall. intros g.
    compose_cases pe ctx o; vm_compute; intros Hg.
    all: repeat (apply elem_of_cons in Hg as [->|Hg]; [auto|]).
    all: by apply elem_of_nil in Hg. }
  split_and!; try done.
  intros r [Hsend Hconsume].
  destruct (decide (r = discoveryRole)) as [->|Hd].
  { rewrite Hdiscovery in Hconsume.
    repeat (apply elem_of_cons in Hconsume as [?|Hconsume]; [done|]).
    by apply elem_of_nil in Hconsume. }
  destruct (decide (r = workerRole)) as [->|Hw].
  { rewrite Hworker in Hsend. destruct (fleetInstantiated _).
    - repeat (apply elem_of_cons in Hsend as [?|Hsend]; [done|]).
      by apply elem_of_nil in Hsend.
    - by apply elem_of_nil in Hsend. }
  rewrite (grantsTo_other discoveryRole workerRole) in Hsend by done.
  by apply elem_of_nil in Hsend.
Qed.

(** ** C3: the predicate that activates the event trigger *)

Lemma UseS3Event_value (ρ : gmap string string)
    (srcInCurrentAccount srcType srcEvent : CfnParameter) :
  evalCondition ρ
    (UseS3Event_expression srcInCurrentAccount srcType srcEvent)
  = bool_decide (resolve ρ (valueAsString srcInCurrentAccount) = "true")
    && bool_decide (resolve ρ (valueAsString srcType) = "Amazon_S3")
    && negb (bool_decide (resolve ρ (valueAsString srcEvent) = "No")).
Proof.
  unfold UseS3Event_expression. cbn [evalCondition forallb resolve].
  rewrite andb_true_r, andb_assoc.
  f_equal; [f_equal|f_equal]; apply bool_decide_ext; split; congruence.
Qed.

(** C3: under every assignment of values the [UseS3Event] expression is
    true exactly when the source is in the current account, the source
    type is [Amazon_S3] and the trigger mode is not [No]. *)
Theorem UseS3Event_is_the_conjunction (ρ : gmap string string)
    (srcInCurrentAccount srcType srcEvent : CfnParameter) :
  evalCondition ρ
    (UseS3Event_expression srcInCurrentAccount srcType srcEvent) = true
  ↔ resolve ρ (valueAsString srcInCurrentAccount) = "true"
    ∧ resolve ρ (valueAsString srcType) = "Amazon_S3"
    ∧ resolve ρ (valueAsString srcEvent) ≠ "No".
Proof.
  rewrite UseS3Event_value, !andb_true_iff, negb_true_iff,
    !bool_decide_eq_true, bool_decide_eq_false.
  tauto.
Qed.

(** ** C7: the two environments *)

(** C7, as stated, fails: in the default composition the discovery task
    is given the region ([AWS_DEFAULT_REGION]) and the worker fleet is
    not. *)
Lemma worker_env_lacks_region :
  nodeAt "ECSStack" (composed ∅ ∅ returning)
  = Some (Node.EcsStack composedEcsProps)
  ∧ nodeAt "EC2WorkerStack" (composed ∅ ∅ returning)
    = Some (Node.Ec2WorkerStack composedFleetProps)
  ∧ "AWS_DEFAULT_REGION" ∈ variables (ecs_env composedEcsProps)
  ∧ "AWS_DEFAULT_REGION" ∉ variables (ec2_env composedFleetProps).
Proof. split_and!; compute_done. Qed.

(** C7, amended: the discovery task of every composition receives the
    region, the ledger (table) name, the queue name and every source and
    destination location and credential field; the worker fleet, where
    there is one, receives every variable of the discovery task but the
    region, with the same value, and in addition the storage class, the
    ACL, the metadata-inclusion flag and the worker-thread count. *)
Theorem worker_env_extends_finder_env_but_region pe ctx o :
  nodeAt "ECSStack" (composed pe ctx o)
  = Some (Node.EcsStack composedEcsProps)
  ∧ nodeAt "EC2WorkerStack" (composed pe ctx o)
    = (if fleetInstantiated (composed pe ctx o)
       then Some (Node.Ec2WorkerStack composedFleetProps) else None)
  ∧ [ ("AWS_DEFAULT_REGION", Aws.REGION);
      ("JOB_TABLE_NAME", ddb.tableName (jobTable composedCommonStack));
      ("JOB_QUEUE_NAME", sqs.queueName (sqsQueue composedCommonStack));
      ("SRC_BUCKET", Ref "srcBucket");
      ("SRC_PREFIX", Ref "srcPrefix");
      ("SRC_REGION", Ref "srcRegion");
      ("SRC_ENDPOINT", Ref "srcEndpoint");
      ("SRC_CREDENTIALS", Ref "srcCredentials");
      ("SRC_IN_CURRENT_ACCOUNT", Ref "srcInCurrentAccount");
      ("DEST_BUCKET", Ref "destBucket");
      ("DEST_PREFIX", Ref "destPrefix");
      ("DEST_REGION", Ref "destRegion");
      ("DEST_CREDENTIALS", Ref "destCredentials");
      ("DEST_IN_CURRENT_ACCOUNT", Ref "destInCurrentAccount") ]
    ⊆ ecs_env composedEcsProps
  ∧ filter (λ kv, kv.1 ≠ "AWS_DEFAULT_REGION") (ecs_env composedEcsProps)
    ⊆ ec2_env composedFleetProps
  ∧ ("AWS_DEFAULT_REGION" ∉ variables (ec2_env composedFleetProps))
  ∧ ([ ("DEST_STORAGE_CLASS", Ref "destStorageClass");
       ("DEST_ACL", Ref "destAcl");
       ("INCLUDE_METADATA", Ref "includeMetadata");
       ("WORKER_NUMBER", Ref "workerNumber") ]
     ⊆ filter (λ kv, kv.1 ∉ variables (ecs_env composedEcsProps))
         (ec2_env composedFleetProps)).
Proof.
  split; [compose_cases pe ctx o; vm_compute; done|].
  split; [compose_cases pe ctx o; vm_compute; done|].
  split_and!; compute_done.
Qed.

(** ** C8: validation of the subnet list *)

Lemma violationsOf_checkParameter account values id p :
  violationsOf id (checkParameter account values p)
  = if decide (logicalId p = id) then checkParameter account values p else [].
Proof.
  unfold violationsOf, checkParameter.
  induction (match effectiveValue values p with
             | Some v => _ | None => _ end) as [|r rs IH].
  - by destruct (decide _).
  - rewrite fmap_cons, filter_cons, IH. cbn [parameter].
    by destruct (decide (logicalId p = id)).
Qed.

Lemma violationsOf_validate account values id (s : Stack) :
  violationsOf id (validate account values s)
  = flat_map (checkParameter account values)
      (filter (λ p : CfnParameter, logicalId p = id) (parameters s)).
Proof.
  unfold validate. induction (parameters s) as [|p ps IH]; [done|].
  cbn [flat_map]. unfold violationsOf in *.
  rewrite filter_app, IH.
  fold (violationsOf id (checkParameter account values p)).
  rewrite violationsOf_checkParameter, filter_cons.
  destruct (decide (logicalId p = id)); [done|].
  done.
Qed.

(** C8, as stated, fails: a parameter set whose subnet list has a single
    entry passes validation. *)
Lemma one_subnet_is_accepted :
  (commaDelimited <$> oneSubnet !! "ecsSubnets") = Some [ "subnet-97bfc4cd" ]
  ∧ validate someAccount oneSubnet (composed ∅ ∅ returning) = [].
Proof. split; by vm_compute. Qed.

(** C8, amended: the subnet parameter is declared as a list of subnet ids
    with no bound on its length (the two subnets are asked for in its
    description only); validation reports no violation for it when every
    entry of the supplied list is a subnet of the account, whatever the
    number of entries, so lists of at least two entries are accepted and
    so are shorter ones. *)
Theorem subnet_list_of_any_length_is_accepted pe ctx o account values v :
  values !! "ecsSubnets" = Some v →
  Forall (λ x, x ∈ subnets account) (commaDelimited v) →
  declaredParameter "ecsSubnets" (composed pe ctx o) = Some ecsSubnets_props
  ∧ violationsOf "ecsSubnets" (validate account values (composed pe ctx o))
    = [].
Proof.
  intros Hv Hall.
  assert (filter (λ p : CfnParameter, logicalId p = "ecsSubnets")
            (parameters (composed pe ctx o))
          = [ declared "ecsSubnets" ecsSubnets_props ]) as Hdecl.
  { compose_cases pe ctx o; vm_compute; done. }
  split.
  - unfold declaredParameter. by rewrite Hdecl.
  - rewrite violationsOf_validate, Hdecl. cbn [flat_map].
    unfold checkParameter, effectiveValue. cbn [logicalId declared].
    rewrite Hv. cbn.
    rewrite (proj2 (forallb_forall _ _)); [done|].
    intros x Hx. apply bool_decide_eq_true.
    rewrite Forall_forall in Hall. apply Hall. by apply list_elem_of_In.
Qed.

Lemma subnet_list_of_any_length_is_accepted_witness :
  declaredParameter "ecsSubnets" (composed ∅ ∅ returning)
  = Some ecsSubnets_props
  ∧ violationsOf "ecsSubnets"
      (validate someAccount oneSubnet (composed ∅ ∅ returning)) = [].
Proof.
  apply (subnet_list_of_any_length_is_accepted ∅ ∅ returning someAccount
           oneSubnet "subnet-97bfc4cd").
  - reflexivity.
  - vm_compute. repeat constructor.
Defined.

(** ** C2: inconsistent capacity bounds *)

(** When the constructor of the fleet throws, the composition stops with
    that exception; the stack then has no node for the fleet, no grant
    to the worker role and no policy attached to it. *)
Lemma fleet_rejected pe ctx o e :
  runType ctx = RunType.EC2 →
  Ec2WorkerStack_throws o composedFleetProps = Some e →
  (compose pe ctx o).1 = Threw e
  ∧ fleetInstantiated (composed pe ctx o) = false
  ∧ nodeAt "EC2WorkerStack" (composed pe ctx o) = None
  ∧ grantsTo workerRole (composed pe ctx o) = []
  ∧ filter (λ rp, rp.1 = workerRole) (inlinePolicies (composed pe ctx o)) = [].
Proof.
  intros Hmode Hsome. revert Hmode Hsome.
  compose_cases pe ctx o; intros Hmode Hsome; try done.
  all: injection Hsome as ->; vm_compute; done.
Qed.

(** In EC2 mode the composition completes unless the constructor of the
    fleet throws on the props it is handed, and then it stops with that
    exception. *)
Lemma fleet_outcome pe ctx o :
  runType ctx = RunType.EC2 →
  (compose pe ctx o).1
  = match Ec2WorkerStack_throws o composedFleetProps with
    | Some e => Threw e
    | None => Returned ()
    end.
Proof.
  intros Hmode. revert Hmode.
  compose_cases pe ctx o; intros Hmode; try done.
Qed.

(** When that constructor returns, the fleet is a node of the tree, with
    the props it was handed. *)
Lemma fleet_built pe ctx o :
  runType ctx = RunType.EC2 →
  Ec2WorkerStack_throws o composedFleetProps = None →
  nodeAt "EC2WorkerStack" (composed pe ctx o)
  = Some (Node.Ec2WorkerStack composedFleetProps).
Proof.
  intros Hmode Hfleet. revert Hmode Hfleet.
  compose_cases pe ctx o; intros Hmode Hfleet; try done.
  all: subst; vm_compute; done.
Qed.

(** A parameter of type Number without further rules accepts every
    number. *)
Lemma number_is_accepted account values id description default_ v
    (s : Stack) :
  filter (λ p : CfnParameter, logicalId p = id) (parameters s)
  = [ declared id (Number_parameter description default_) ] →
  values !! id = Some v →
  is_Some (parseNumber v) →
  violationsOf id (validate account values s) = [].
Proof.
  intros Hdecl Hv [n Hn].
  rewrite violationsOf_validate, Hdecl. cbn [flat_map].
  unfold checkParameter, effectiveValue. cbn [logicalId declared].
  rewrite Hv. cbn. by rewrite Hn.
Qed.

(** C2, as stated, fails: with a minimum capacity of 5 and a maximum
    capacity of 2 the parameter set passes validation, and the
    composition in EC2 mode completes with the worker fleet in its tree.
    The fleet is handed references to the capacity parameters, not their
    values, and a composition takes no parameter values: no constructor
    of the fleet can make every composition with [min > max] fail and
    let another one complete. *)
Lemma inconsistent_capacity_is_composed :
  numberOf fiveToTwo "minCapacity" = Some 5%Z
  ∧ numberOf fiveToTwo "maxCapacity" = Some 2%Z
  ∧ validate someAccount fiveToTwo (composed ∅ ∅ returning) = []
  ∧ runType ∅ = RunType.EC2
  ∧ (compose ∅ ∅ returning).1 = Returned ()
  ∧ nodeAt "EC2WorkerStack" (composed ∅ ∅ returning)
    = Some (Node.Ec2WorkerStack composedFleetProps)
  ∧ ¬ ∃ o,
      (∀ (values : gmap string string) (min max : Z),
         numberOf values "minCapacity" = Some min →
         numberOf values "maxCapacity" = Some max →
         (max < min)%Z →
         ∃ e, (compose ∅ ∅ o).1 = Threw e)
      ∧ (compose ∅ ∅ o).1 = Returned ().
Proof.
  split; [by vm_compute|]. split; [by vm_compute|].
  split; [by vm_compute|]. split; [by vm_compute|].
  split; [by vm_compute|]. split; [by vm_compute|].
  intros (o & Hfails & Hreturns).
  destruct (Hfails fiveToTwo 5%Z 2%Z) as [e He]; [done|done|lia|].
  congruence.
Qed.

(** C2, amended: the capacities are left to the deployment.  In EC2 mode
    the fleet is handed references to the three capacity parameters;
    whether the composition fails is decided by what the constructor of
    the fleet does on these props, the same whatever values the
    parameters take, and the composition completes, with the fleet in
    its tree, when that constructor returns.  The three parameters are plain numbers to parameter
    validation: any number is accepted for each, in any order of minimum
    and maximum.  An exception of the fleet's constructor is fatal: the
    composition stops with it, with no grant to the worker role and no
    policy attached to it. *)
Theorem capacity_is_left_to_deployment pe ctx o :
  runType ctx = RunType.EC2 →
  (compose pe ctx o).1
  = match Ec2WorkerStack_throws o composedFleetProps with
    | Some e => Threw e
    | None => Returned ()
    end
  ∧ (Ec2WorkerStack_throws o composedFleetProps = None →
     nodeAt "EC2WorkerStack" (composed pe ctx o)
     = Some (Node.Ec2WorkerStack composedFleetProps))
  ∧ minCapacity composedFleetProps = Some (Ref "minCapacity")
  ∧ maxCapacity composedFleetProps = Some (Ref "maxCapacity")
  ∧ desiredCapacity composedFleetProps = Some (Ref "desiredCapacity")
  ∧ (∀ account values id,
       id ∈ [ "minCapacity"; "maxCapacity"; "desiredCapacity" ] →
       is_Some (numberOf values id) →
       violationsOf id (validate account values (composed pe ctx o)) = [])
  ∧ (∀ e,
       Ec2WorkerStack_throws o composedFleetProps = Some e →
       (compose pe ctx o).1 = Threw e
       ∧ grantsTo workerRole (composed pe ctx o) = []
       ∧ filter (λ rp, rp.1 = workerRole) (inlinePolicies (composed pe ctx o))
         = []).
Proof.
  intros Hmode.
  split; [by apply fleet_outcome|].
  split; [by apply fleet_built|].
  split; [done|]. split; [done|]. split; [done|].
  split.
  - intros account values id Hid [n Hn].
    unfold numberOf in Hn.
    destruct (values !! id) as [v|] eqn:Hv; [|done]. cbn in Hn.
    rewrite !elem_of_cons, elem_of_nil in Hid.
    destruct Hid as [-> | [-> | [-> | []]]].
    + apply (number_is_accepted account values "minCapacity"
               "Minimum Capacity for Auto Scaling Group" "1" v);
        [|done|by rewrite Hn].
      revert Hmode. compose_cases pe ctx o; intros Hmode; try done.
      all: vm_compute; done.
    + apply (number_is_accepted account values "maxCapacity"
               "Maximum Capacity for Auto Scaling Group" "20" v);
        [|done|by rewrite Hn].
      revert Hmode. compose_cases pe ctx o; intros Hmode; try done.
      all: vm_compute; done.
    + apply (number_is_accepted account values "desiredCapacity"
               "Desired Capacity for Auto Scaling Group" "1" v);
        [|done|by rewrite Hn].
      revert Hmode. compose_cases pe ctx o; intros Hmode; try done.
      all: vm_compute; done.
  - intros e He.
    destruct (fleet_rejected pe ctx o e Hmode He) as (? & ? & ? & ? & ?).
    done.
Qed.

Lemma capacity_is_left_to_deployment_witness :
  (compose ∅ ∅ returning).1
  = match Ec2WorkerStack_throws returning composedFleetProps with
    | Some e => Threw e
    | None => Returned ()
    end
  ∧ (Ec2WorkerStack_throws returning composedFleetProps = None →
     nodeAt "EC2WorkerStack" (composed ∅ ∅ returning)
     = Some (Node.Ec2WorkerStack composedFleetProps))
  ∧ minCapacity composedFleetProps = Some (Ref "minCapacity")
  ∧ maxCapacity composedFleetProps = Some (Ref "maxCapacity")
  ∧ desiredCapacity composedFleetProps = Some (Ref "desiredCapacity")
  ∧ (∀ account values id,
       id ∈ [ "minCapacity"; "maxCapacity"; "desiredCapacity" ] →
       is_Some (numberOf values id) →
       violationsOf id (validate account values (composed ∅ ∅ returning))
       = [])
  ∧ (∀ e,
       Ec2WorkerStack_throws returning composedFleetProps = Some e →
       (compose ∅ ∅ returning).1 = Threw e
       ∧ grantsTo workerRole (composed ∅ ∅ returning) = []
       ∧ filter (λ rp, rp.1 = workerRole)
           (inlinePolicies (composed ∅ ∅ returning))
         = []).
Proof.
  apply (capacity_is_left_to_deployment ∅ ∅ returning).
  reflexivity.
Defined.

(** ** C6: the event stack is specified whatever its condition *)

Lemma resolve_unread x v (ρ : gmap string string) t :
  x ∉ token_keys t → resolve (<[x := v]> ρ) t = resolve ρ t.
Proof.
  induction t as [s|y|y a|a IHa b IHb|]; cbn; intros Hx.
  - done.
  - rewrite lookup_insert_ne; [done|]. intros ->. apply Hx. by left.
  - rewrite lookup_insert_ne; [done|]. intros ->. apply Hx. by left.
  - rewrite not_elem_of_app in Hx. destruct Hx. by rewrite IHa, IHb.
  - rewrite lookup_insert_ne; [done|]. intros ->. apply Hx. by left.
Qed.

Lemma resolve_unread_all x v (ρ : gmap string string) ts :
  reads x ts = false → resolve (<[x := v]> ρ) <$> ts = resolve ρ <$> ts.
Proof.
  unfold reads. induction ts as [|t ts IH]; [done|]. cbn.
  intros [Ht Hts]%orb_false_elim.
  apply bool_decide_eq_false in Ht. by rewrite resolve_unread, IH.
Qed.

Lemma othersUnaffectedBy_srcEvent pe ctx o :
  othersUnaffectedBy "srcEvent" (composed pe ctx o) = true.
Proof. compose_cases pe ctx o; vm_compute; done. Qed.

Lemma event_stack_composed pe ctx o :
  (compose pe ctx o).1 = Returned () →
  EventStack_nested o = true →
  nodeAt "EventStack" (composed pe ctx o)
  = Some (Node.EventStack composedEventProps)
  ∧ nodeAt "UseS3Event" (composed pe ctx o)
    = Some (Node.CfnCondition {| expression := composedUseS3Event |})
  ∧ resourceConditions (composed pe ctx o)
    = [ (eventResource, {| conditionId := "UseS3Event" |}) ].
Proof.
  intros Hreturned Hnested. revert Hreturned Hnested.
  compose_cases pe ctx o; intros Hreturned Hnested; try done.
  all: revert Hreturned; vm_compute; done.
Qed.

(** C6: in every composition that completes, with the event stack a
    nested stack: the event stack is in the tree with all its props and
    [UseS3Event] is the condition of its resource, whatever the values of
    the parameters; at deployment the resource is created exactly when
    the condition holds; and changing the value of [srcEvent] only
    changes the resolved specification of no other node, policy
    statement, subscription or grant. *)
Theorem event_stack_is_specified_whatever_the_condition pe ctx o :
  (compose pe ctx o).1 = Returned () →
  EventStack_nested o = true →
  nodeAt "EventStack" (composed pe ctx o)
  = Some (Node.EventStack composedEventProps)
  ∧ nodeAt "UseS3Event" (composed pe ctx o)
    = Some (Node.CfnCondition {| expression := composedUseS3Event |})
  ∧ resourceConditions (composed pe ctx o)
    = [ (eventResource, {| conditionId := "UseS3Event" |}) ]
  ∧ (∀ ρ, activated ρ eventResource (composed pe ctx o)
          = evalCondition ρ composedUseS3Event)
  ∧ (∀ ρ : gmap string string,
       ρ !! "srcInCurrentAccount" = Some "true" →
       ρ !! "srcType" = Some "Amazon_S3" →
       activated (<["srcEvent" := "No"]> ρ) eventResource
         (composed pe ctx o) = false
       ∧ activated (<["srcEvent" := "Create"]> ρ) eventResource
           (composed pe ctx o) = true)
  ∧ (∀ (ρ : gmap string string) v path n,
       (path, n) ∈ children (composed pe ctx o) →
       path ≠ "EventStack" → path ≠ "UseS3Event" →
       resolvedSpecification (<["srcEvent" := v]> ρ) n
       = resolvedSpecification ρ n)
  ∧ (∀ (ρ : gmap string string) v,
       resolve (<["srcEvent" := v]> ρ) <$> attachedTokens (composed pe ctx o)
       = resolve ρ <$> attachedTokens (composed pe ctx o)).
Proof.
  intros Hreturned Hnested.
  destruct (event_stack_composed pe ctx o Hreturned Hnested)
    as (Hevent & Hcondition & Hattached).
  assert (∀ ρ, activated ρ eventResource (composed pe ctx o)
               = evalCondition ρ composedUseS3Event) as Hactivated.
  { intros ρ. unfold activated.
    assert (conditionOf eventResource (composed pe ctx o)
            = Some {| conditionId := "UseS3Event" |}) as ->.
    { unfold conditionOf. by rewrite Hattached. }
    cbn [conditionId]. by rewrite Hcondition. }
  pose proof (othersUnaffectedBy_srcEvent pe ctx o) as Hothers.
  apply andb_true_iff in Hothers as [Hnodes Hrest].
  split_and!; try done.
  - intros ρ Haccount Htype. rewrite !Hactivated.
    unfold composedUseS3Event. rewrite !UseS3Event_value.
    cbn [resolve valueAsString logicalId declared].
    split.
    all: rewrite !lookup_insert_ne, lookup_insert_eq, Haccount, Htype by done.
    all: done.
  - intros ρ v path n Hin Hevent' Hcondition'.
    rewrite forallb_forall in Hnodes.
    specialize (Hnodes (path, n)). cbn in Hnodes.
    rewrite <- list_elem_of_In in Hnodes. specialize (Hnodes Hin).
    rewrite !orb_true_iff, !bool_decide_eq_true, negb_true_iff in Hnodes.
    destruct Hnodes as [[?|?]|Hunread]; [done..|].
    unfold resolvedSpecification. by rewrite resolve_unread_all.
  - intros ρ v. apply resolve_unread_all. by apply negb_true_iff.
Qed.

Lemma event_stack_is_specified_whatever_the_condition_witness :
  nodeAt "EventStack" (composed ∅ ∅ returning)
  = Some (Node.EventStack composedEventProps)
  ∧ nodeAt "UseS3Event" (composed ∅ ∅ returning)
    = Some (Node.CfnCondition {| expression := composedUseS3Event |})
  ∧ resourceConditions (composed ∅ ∅ returning)
    = [ (eventResource, {| conditionId := "UseS3Event" |}) ]
  ∧ (∀ ρ, activated ρ eventResource (composed ∅ ∅ returning)
          = evalCondition ρ composedUseS3Event)
  ∧ (∀ ρ : gmap string string,
       ρ !! "srcInCurrentAccount" = Some "true" →
       ρ !! "srcType" = Some "Amazon_S3" →
       activated (<["srcEvent" := "No"]> ρ) eventResource
         (composed ∅ ∅ returning) = false
       ∧ activated (<["srcEvent" := "Create"]> ρ) eventResource
           (composed ∅ ∅ returning) = true)
  ∧ (∀ (ρ : gmap string string) v path n,
       (path, n) ∈ children (composed ∅ ∅ returning) →
       path ≠ "EventStack" → path ≠ "UseS3Event" →
       resolvedSpecification (<["srcEvent" := v]> ρ) n
       = resolvedSpecification ρ n)
  ∧ (∀ (ρ : gmap string string) v,
       resolve (<["srcEvent" := v]> ρ)
         <$> attachedTokens (composed ∅ ∅ returning)
       = resolve ρ <$> attachedTokens (composed ∅ ∅ returning)).
Proof.
  apply (event_stack_is_specified_whatever_the_condition ∅ ∅ returning);
    reflexivity.
Defined.

(** * Further properties of the code *)

(** ** The runtime mode and the two ends of the constructor *)

(** X2: in any mode other than EC2 the composition completes, whatever
    the constructor of the fleet would do: it is never called.  The three
    capacity parameters are then neither declared nor referenced, 23
    parameters are declared, and the default policy is attached to the
    discovery role only. *)
Theorem without_fleet_the_composition_completes pe ctx o :
  runType ctx ≠ RunType.EC2 →
  (compose pe ctx o).1 = Returned ()
  ∧ fleetInstantiated (composed pe ctx o) = false
  ∧ filter (λ id, id ∈ ["maxCapacity"; "minCapacity"; "desiredCapacity"])
      (declaredIds (composed pe ctx o)) = []
  ∧ length (parameters (composed pe ctx o)) = 23
  ∧ filter (λ id, id ∈ ["maxCapacity"; "minCapacity"; "desiredCapacity"])
      (flat_map token_ids (allTokens (composed pe ctx o))) = []
  ∧ inlinePolicies (composed pe ctx o) = [ (discoveryRole, composedPolicy) ].
Proof.
  intros Hmode. revert Hmode.
  compose_cases pe ctx o; intros Hmode; try done.
  all: vm_compute; done.
Qed.

Lemma without_fleet_the_composition_completes_witness :
  (compose ∅ lambdaContext throwing).1 = Returned ()
  ∧ fleetInstantiated (composed ∅ lambdaContext throwing) = false
  ∧ filter (λ id, id ∈ ["maxCapacity"; "minCapacity"; "desiredCapacity"])
      (declaredIds (composed ∅ lambdaContext throwing)) = []
  ∧ length (parameters (composed ∅ lambdaContext throwing)) = 23
  ∧ filter (λ id, id ∈ ["maxCapacity"; "minCapacity"; "desiredCapacity"])
      (flat_map token_ids (allTokens (composed ∅ lambdaContext throwing))) = []
  ∧ inlinePolicies (composed ∅ lambdaContext throwing)
    = [ (discoveryRole, composedPolicy) ].
Proof.
  apply (without_fleet_the_composition_completes ∅ lambdaContext throwing).
  vm_compute. discriminate.
Defined.

(** X3: a composition that completes has exactly one dashboard; it is
    given the runtime mode and the work queue, and the name of the Auto
    Scaling group in EC2 mode and no name in any other mode. *)
Theorem dashboard_follows_the_mode pe ctx o :
  (compose pe ctx o).1 = Returned () →
  nodeAt "DashboardStack" (composed pe ctx o)
  = Some (Node.DashboardStack
            {| db_runType := runType ctx;
               db_queue := sqsQueue composedCommonStack;
               asgName := if bool_decide (runType ctx = RunType.EC2)
                          then Some (Ref "EC2WorkerStack/workerAsg")
                          else None |})
  ∧ length (filter (λ c, is_DashboardStack c.2 = true)
              (children (composed pe ctx o))) = 1.
Proof.
  intros Hreturned. revert Hreturned.
  compose_cases pe ctx o; intros Hreturned.
  all: rewrite ?(bool_decide_eq_true_2 _ Hrt), ?(bool_decide_eq_false_2 _ Hrt).
  all: revert Hreturned; vm_compute; try done.
  all: subst; done.
Qed.

Lemma dashboard_follows_the_mode_witness :
  nodeAt "DashboardStack" (composed ∅ lambdaContext returning)
  = Some (Node.DashboardStack
            {| db_runType := runType lambdaContext;
               db_queue := sqsQueue composedCommonStack;
               asgName := if bool_decide (runType lambdaContext = RunType.EC2)
                          then Some (Ref "EC2WorkerStack/workerAsg")
                          else None |})
  ∧ length (filter (λ c, is_DashboardStack c.2 = true)
              (children (composed ∅ lambdaContext returning))) = 1.
Proof.
  apply (dashboard_follows_the_mode ∅ lambdaContext returning). reflexivity.
Defined.

(** X4: in EC2 mode, an exception thrown by the constructor of the
    fleet is the outcome of the composition, and nothing that follows it
    in the constructor is built: no dashboard, no event stack, no
    condition.  What precedes it is: the 26 parameters, the 11 nodes of
    the common stack, the discovery task and its grants. *)
Theorem a_throwing_fleet_stops_the_composition pe ctx o e :
  runType ctx = RunType.EC2 →
  Ec2WorkerStack_throws o composedFleetProps = Some e →
  (compose pe ctx o).1 = Threw e
  ∧ filter (λ c, is_DashboardStack c.2 || is_EventStack c.2
                 || is_CfnCondition c.2 = true)
      (children (composed pe ctx o)) = []
  ∧ resourceConditions (composed pe ctx o) = []
  ∧ discoveryInstantiated (composed pe ctx o) = true
  ∧ length (parameters (composed pe ctx o)) = 26
  ∧ grantsTo discoveryRole (composed pe ctx o)
    = [ (composedQueue, grantSendMessages);
        (sourceBucket, grantRead);
        (destinationBucket, grantRead) ]
  ∧ length (filter (λ c, String.prefix "Common" c.1 = true)
              (children (composed pe ctx o))) = 11.
Proof.
  intros Hmode Hsome. revert Hmode Hsome.
  compose_cases pe ctx o; intros Hmode Hsome; try done.
  all: injection Hsome as ->; vm_compute; done.
Qed.

Lemma a_throwing_fleet_stops_the_composition_witness :
  (compose ∅ ∅ throwing).1 = Threw (Error_ "no capacity")
  ∧ filter (λ c, is_DashboardStack c.2 || is_EventStack c.2
                 || is_CfnCondition c.2 = true)
      (children (composed ∅ ∅ throwing)) = []
  ∧ resourceConditions (composed ∅ ∅ throwing) = []
  ∧ discoveryInstantiated (composed ∅ ∅ throwing) = true
  ∧ length (parameters (composed ∅ ∅ throwing)) = 26
  ∧ grantsTo discoveryRole (composed ∅ ∅ throwing)
    = [ (composedQueue, grantSendMessages);
        (sourceBucket, grantRead);
        (destinationBucket, grantRead) ]
  ∧ length (filter (λ c, String.prefix "Common" c.1 = true)
              (children (composed ∅ ∅ throwing))) = 11.
Proof.
  apply (a_throwing_fleet_stops_the_composition ∅ ∅ throwing); reflexivity.
Defined.

(** X5: in every composition the names are unique: no two parameters
    share a logical id, no two nodes a path, no two resources an
    overridden logical id, no resource is overridden twice, and no grant
    and no policy attachment is made twice. *)
Theorem names_are_unique pe ctx o :
  NoDup (declaredIds (composed pe ctx o))
  ∧ NoDup (fst <$> children (composed pe ctx o))
  ∧ NoDup (snd <$> logicalIds (composed pe ctx o))
  ∧ NoDup (fst <$> logicalIds (composed pe ctx o))
  ∧ NoDup (grants (composed pe ctx o))
  ∧ NoDup (inlinePolicies (composed pe ctx o)).
Proof.
  compose_cases pe ctx o.
  all: split_and!; compute_done.
Qed.

(** ** The parameter catalogue and its presentation *)

Ltac by_mode Hrt :=
  rewrite ?(bool_decide_eq_true_2 _ Hrt), ?(bool_decide_eq_false_2 _ Hrt).

Lemma composed_parameters pe ctx o :
  parameters (composed pe ctx o) = parametersFor (runType ctx).
Proof.
  unfold parametersFor. compose_cases pe ctx o; by_mode Hrt; reflexivity.
Qed.

Lemma composed_paramGroups pe ctx o :
  paramGroups (composed pe ctx o) = groupsFor (runType ctx).
Proof.
  unfold groupsFor. compose_cases pe ctx o; by_mode Hrt; reflexivity.
Qed.

Lemma composed_paramLabels pe ctx o :
  paramLabels (composed pe ctx o) = labelled (labelsFor (runType ctx)) ∅.
Proof.
  unfold labelsFor. compose_cases pe ctx o; by_mode Hrt; reflexivity.
Qed.

Lemma composed_templateInterface pe ctx o :
  templateInterface (composed pe ctx o) = true.
Proof. compose_cases pe ctx o; reflexivity. Qed.

Lemma labelled_cons call calls (labels : gmap string string) :
  labelled (call :: calls) labels
  = labelled calls (<[call.1 := call.2]> labels).
Proof. reflexivity. Qed.

Lemma labelled_lookup calls (labels : gmap string string) id :
  labelled calls labels !! id
  = match last (filter (λ call, call.1 = id) calls) with
    | Some call => Some call.2
    | None => labels !! id
    end.
Proof.
  revert labels. induction calls as [|[k v] calls IH]; intros labels; [done|].
  rewrite labelled_cons, IH, filter_cons. cbn [fst snd].
  destruct (decide (k = id)) as [->|Hne].
  - rewrite last_cons. destruct (last _); [done|]. by rewrite lookup_insert_eq.
  - destruct (last _); [done|]. by rewrite lookup_insert_ne.
Qed.

Lemma labelled_is_Some calls (labels : gmap string string) id :
  is_Some (labelled calls labels !! id)
  ↔ id ∈ calls.*1 ∨ is_Some (labels !! id).
Proof.
  revert labels. induction calls as [|[k v] calls IH]; intros labels.
  - cbn. rewrite elem_of_nil. tauto.
  - rewrite labelled_cons, IH, fmap_cons, elem_of_cons. cbn [fst snd].
    destruct (decide (k = id)) as [->|Hne].
    + rewrite lookup_insert_eq. intuition eauto.
    + rewrite lookup_insert_ne by done. intuition congruence.
Qed.

(** X6: the presentation metadata of every composition: a parameter has
    a label exactly when it is declared and is not one of [finderDepth],
    [finderNumber], [workerNumber]; no parameter is in two groups; every
    grouped parameter is declared; in EC2 mode every declared parameter
    is in a group, in any other mode [includeMetadata], [finderDepth],
    [finderNumber] and [workerNumber] are in none; and the template
    metadata holds these groups and labels. *)
Theorem presentation_covers_the_declared_parameters pe ctx o :
  (∀ id, is_Some (paramLabels (composed pe ctx o) !! id)
         ↔ id ∈ declaredIds (composed pe ctx o)
           ∧ id ∉ ["finderDepth"; "finderNumber"; "workerNumber"])
  ∧ NoDup (groupedIds (composed pe ctx o))
  ∧ groupedIds (composed pe ctx o) ⊆ declaredIds (composed pe ctx o)
  ∧ filter (λ id, id ∉ groupedIds (composed pe ctx o))
      (declaredIds (composed pe ctx o))
    = (if bool_decide (runType ctx = RunType.EC2) then []
       else ["includeMetadata"; "finderDepth"; "finderNumber";
             "workerNumber"])
  ∧ templateMetadata (composed pe ctx o)
    = Some (paramGroups (composed pe ctx o),
            paramLabels (composed pe ctx o)).
Proof.
  unfold templateMetadata, groupedIds, declaredIds.
  rewrite composed_templateInterface, composed_paramLabels,
    composed_paramGroups, composed_parameters.
  split; [|split; [|split; [|split]]].
  - intros id. rewrite labelled_is_Some, lookup_empty.
    assert ((labelsFor (runType ctx)).*1
            = filter (λ id, id ∉ ["finderDepth"; "finderNumber";
                                  "workerNumber"])
                (logicalId <$> parametersFor (runType ctx))) as ->.
    { unfold labelsFor, parametersFor.
      destruct (bool_decide (runType ctx = RunType.EC2)); reflexivity. }
    rewrite list_elem_of_filter.
    split; [intros [[??]|[? [=]]]; done | intros [??]; left; done].
  - unfold groupsFor.
    destruct (bool_decide (runType ctx = RunType.EC2)); compute_done.
  - unfold groupsFor, parametersFor.
    destruct (bool_decide (runType ctx = RunType.EC2)); compute_done.
  - unfold groupsFor, parametersFor.
    destruct (bool_decide (runType ctx = RunType.EC2)); reflexivity.
  - reflexivity.
Qed.

(** ** Validation against the declarations *)

Lemma typeViolations_not_Required account t v :
  Forall (λ r, r ≠ Required) (typeViolations account t v).
Proof.
  destruct t; cbn; repeat case_match; repeat constructor; done.
Qed.

Lemma constraintViolations_not_Required props v :
  Forall (λ r, r ≠ Required) (constraintViolations props v).
Proof.
  unfold constraintViolations. apply Forall_app.
  split; repeat case_match; repeat constructor; done.
Qed.

Lemma checkParameter_Required account values p :
  parameter <$> filter (λ e, rule e = Required)
                  (checkParameter account values p)
  = if bool_decide (values !! logicalId p = None) && hasNoDefault p
    then [ logicalId p ] else [].
Proof.
  unfold checkParameter, effectiveValue, hasNoDefault.
  destruct (values !! logicalId p) as [v|] eqn:Hv; cbn [bool_decide andb].
  2: destruct (CfnParameterProps.default (parameterProps p)) as [v|];
       [|by rewrite bool_decide_eq_true_2].
  all: rewrite ?(bool_decide_eq_false_2 (Some v = None)) by done.
  all: rewrite ?bool_decide_eq_true_2 by done; cbn [andb].
  all: assert (Forall (λ r, r ≠ Required)
                 (typeViolations account
                    (CfnParameterProps.type (parameterProps p)) v
                  ++ constraintViolations (parameterProps p) v)) as Hall
         by (apply Forall_app; split;
             [apply typeViolations_not_Required
             |apply constraintViolations_not_Required]).
  all: induction Hall as [|r rs Hr _ IH]; [done|].
  all: rewrite fmap_cons, filter_cons_False; [done|by cbn].
Qed.

Lemma validate_Required account values ps :
  parameter <$> filter (λ e, rule e = Required)
                  (flat_map (checkParameter account values) ps)
  = filter (λ id, values !! id = None)
      (logicalId <$> filter (λ p, hasNoDefault p = true) ps).
Proof.
  induction ps as [|p ps IH]; [done|].
  cbn [flat_map]. rewrite filter_app, fmap_app, IH, checkParameter_Required.
  rewrite (filter_cons (λ p, hasNoDefault p = true)).
  destruct (decide (hasNoDefault p = true)) as [Hd|Hd].
  - rewrite Hd, andb_true_r, fmap_cons, filter_cons.
    destruct (decide (values !! logicalId p = None)) as [H|H].
    + by rewrite bool_decide_eq_true_2.
    + by rewrite bool_decide_eq_false_2.
  - apply not_true_is_false in Hd. by rewrite Hd, andb_false_r.
Qed.

(** X7: in every composition the parameters without a default are
    [srcBucket], [destBucket] and [alarmEmail]; every default passes the
    checks of its own declaration; so validation reports a missing value
    exactly for those of the three that are not supplied. *)
Theorem required_parameters_and_defaults pe ctx o :
  logicalId <$> filter (λ p, hasNoDefault p = true)
                  (parameters (composed pe ctx o))
  = [ "srcBucket"; "destBucket"; "alarmEmail" ]
  ∧ Forall (λ p, defaultIsAccepted p = true) (parameters (composed pe ctx o))
  ∧ ∀ account values,
      parameter <$> filter (λ e, rule e = Required)
                      (validate account values (composed pe ctx o))
      = filter (λ id, values !! id = None)
          [ "srcBucket"; "destBucket"; "alarmEmail" ].
Proof.
  assert (logicalId <$> filter (λ p, hasNoDefault p = true)
                          (parameters (composed pe ctx o))
          = [ "srcBucket"; "destBucket"; "alarmEmail" ]) as Hrequired.
  { rewrite composed_parameters. unfold parametersFor.
    destruct (bool_decide (runType ctx = RunType.EC2)); reflexivity. }
  split; [done|]. split.
  - rewrite composed_parameters. unfold parametersFor.
    destruct (bool_decide (runType ctx = RunType.EC2)); compute_done.
  - intros account values. unfold validate.
    by rewrite validate_Required, Hrequired.
Qed.

Lemma checkParameter_unconstrained account values p :
  unconstrained p = true → checkParameter account values p = [].
Proof.
  unfold unconstrained, checkParameter, effectiveValue, constraintViolations.
  destruct (CfnParameterProps.type (parameterProps p)); try done.
  destruct (CfnParameterProps.default (parameterProps p)); try done.
  destruct (CfnParameterProps.allowedValues (parameterProps p)); try done.
  destruct (CfnParameterProps.allowedPattern (parameterProps p)); try done.
  by destruct (values !! logicalId p).
Qed.

(** X8: eleven parameters are free text with a default: validation
    never reports a violation for them, whatever is supplied.  Among them
    are [finderDepth], [finderNumber] and [workerNumber], which are
    declared as strings, not as numbers. *)
Theorem free_text_parameters_are_never_rejected pe ctx o :
  logicalId <$> filter (λ p, unconstrained p = true)
                  (parameters (composed pe ctx o))
  = [ "srcPrefix"; "srcRegion"; "srcEndpoint"; "srcCredentials";
      "destPrefix"; "destRegion"; "destCredentials"; "ecsClusterName";
      "finderDepth"; "finderNumber"; "workerNumber" ]
  ∧ ∀ account values id,
      id ∈ [ "srcPrefix"; "srcRegion"; "srcEndpoint"; "srcCredentials";
             "destPrefix"; "destRegion"; "destCredentials";
             "ecsClusterName"; "finderDepth"; "finderNumber";
             "workerNumber" ] →
      violationsOf id (validate account values (composed pe ctx o)) = [].
Proof.
  split.
  { rewrite composed_parameters. unfold parametersFor.
    destruct (bool_decide (runType ctx = RunType.EC2)); reflexivity. }
  intros account values id Hid.
  rewrite violationsOf_validate, composed_parameters.
  assert (Forall (λ p, unconstrained p = true)
            (filter (λ p : CfnParameter, logicalId p = id)
               (parametersFor (runType ctx)))) as Hall.
  { unfold parametersFor.
    destruct (bool_decide (runType ctx = RunType.EC2)).
    all: repeat (apply elem_of_cons in Hid as [->|Hid]; [compute_done|]).
    all: by apply elem_of_nil in Hid. }
  induction Hall as [|p ps Hp _ IH]; [done|].
  cbn [flat_map]. by rewrite checkParameter_unconstrained, IH.
Qed.

(** ** The event stack at deployment *)

Lemma activated_is_UseS3Event pe ctx o ρ :
  (compose pe ctx o).1 = Returned () →
  EventStack_nested o = true →
  activated ρ eventResource (composed pe ctx o)
  = evalCondition ρ composedUseS3Event.
Proof.
  intros Hreturned Hnested.
  destruct (event_stack_composed pe ctx o Hreturned Hnested)
    as (_ & Hcondition & Hattached).
  unfold activated.
  assert (conditionOf eventResource (composed pe ctx o)
          = Some {| conditionId := "UseS3Event" |}) as ->.
  { unfold conditionOf. by rewrite Hattached. }
  cbn [conditionId]. by rewrite Hcondition.
Qed.

Lemma defaultValues_of_the_condition pe ctx o :
  defaultValues (composed pe ctx o) !! "srcInCurrentAccount" = Some "false"
  ∧ defaultValues (composed pe ctx o) !! "srcType" = Some "Amazon_S3"
  ∧ defaultValues (composed pe ctx o) !! "srcEvent" = Some "No".
Proof.
  unfold defaultValues. rewrite composed_parameters. unfold parametersFor.
  destruct (bool_decide (runType ctx = RunType.EC2)); split_and!; compute_done.
Qed.

(** X9: at deployment, with the parameters not supplied at their
    defaults, the event stack is not created unless both
    [srcInCurrentAccount] and [srcEvent] are supplied; with
    [srcInCurrentAccount] supplied as [true] and the source type left at
    its default, it is created exactly when the supplied [srcEvent] is not
    [No]. *)
Theorem event_stack_is_off_by_default pe ctx o (values : gmap string string) :
  (compose pe ctx o).1 = Returned () →
  EventStack_nested o = true →
  (values !! "srcInCurrentAccount" = None ∨ values !! "srcEvent" = None →
   activated (deploymentValues values (composed pe ctx o)) eventResource
     (composed pe ctx o) = false)
  ∧ (∀ events,
       values !! "srcInCurrentAccount" = Some "true" →
       values !! "srcType" = None →
       values !! "srcEvent" = Some events →
       activated (deploymentValues values (composed pe ctx o)) eventResource
         (composed pe ctx o)
       = negb (bool_decide (events = "No"))).
Proof.
  intros Hreturned Hnested.
  destruct (defaultValues_of_the_condition pe ctx o)
    as (Haccount & Htype & Hevents).
  split.
  - intros Hmissing.
    rewrite activated_is_UseS3Event by done.
    unfold composedUseS3Event. rewrite UseS3Event_value.
    cbn [resolve valueAsString logicalId declared].
    unfold deploymentValues. rewrite !lookup_union.
    rewrite Haccount, Htype, Hevents.
    destruct Hmissing as [-> | ->].
    + done.
    + cbn. by rewrite !andb_false_r.
  - intros events Hin Hs3 Hev.
    rewrite activated_is_UseS3Event by done.
    unfold composedUseS3Event. rewrite UseS3Event_value.
    cbn [resolve valueAsString logicalId declared].
    unfold deploymentValues. rewrite !lookup_union.
    by rewrite Haccount, Htype, Hevents, Hin, Hs3, Hev.
Qed.

Lemma event_stack_is_off_by_default_witness :
  (oneSubnet !! "srcInCurrentAccount" = None ∨ oneSubnet !! "srcEvent" = None →
   activated (deploymentValues oneSubnet (composed ∅ ∅ returning))
     eventResource (composed ∅ ∅ returning) = false)
  ∧ (∀ events,
       oneSubnet !! "srcInCurrentAccount" = Some "true" →
       oneSubnet !! "srcType" = None →
       oneSubnet !! "srcEvent" = Some events →
       activated (deploymentValues oneSubnet (composed ∅ ∅ returning))
         eventResource (composed ∅ ∅ returning)
       = negb (bool_decide (events = "No"))).
Proof.
  apply (event_stack_is_off_by_default ∅ ∅ returning oneSubnet); reflexivity.
Defined.

(** ** No dangling handle or reference *)

(** X10: in every composition, also one that stops at an exception,
    every handle of a construct held in the stack is the handle of a node
    of the tree, of the kind its holder expects: the queues of the
    redrive policy, the alarm, the fleet, the dashboard, the event stack
    and the grants are queues, the key of the topic is a key, the buckets
    of the grants are imported buckets, the policies of the statements
    and of the attachments are policies, the topic and the alarm of the
    subscription and of the alarm action are a topic and an alarm, and
    the condition attached to a resource is a condition of the tree. *)
Theorem handles_are_nodes_of_the_tree pe ctx o :
  wellFormed (composed pe ctx o) = true.
Proof. compose_cases pe ctx o; vm_compute; reflexivity. Qed.

(** X11: in every composition every reference in a token of a node, a
    policy statement, a subscription, a grant or the condition names a
    declared parameter, a pseudo parameter or something below a node of
    the tree; so the capacity parameters are referenced only where they
    are declared. *)
Theorem references_resolve pe ctx o :
  referencesResolve (composed pe ctx o) = true.
Proof. compose_cases pe ctx o; vm_compute; reflexivity. Qed.

(** X12: in a composition that completes in EC2 mode every declared
    parameter is referenced by some resource; in any other mode
    [destStorageClass], [destAcl], [includeMetadata] and [workerNumber]
    are declared but referenced nowhere. *)
Theorem every_parameter_is_used_in_EC2_mode pe ctx o :
  (compose pe ctx o).1 = Returned () →
  filter (λ id, id ∉ flat_map token_ids (allTokens (composed pe ctx o)))
    (declaredIds (composed pe ctx o))
  = (if bool_decide (runType ctx = RunType.EC2) then []
     else [ "destStorageClass"; "destAcl"; "includeMetadata";
            "workerNumber" ]).
Proof.
  intros Hreturned. revert Hreturned.
  compose_cases pe ctx o; by_mode Hrt; intros Hreturned.
  all: revert Hreturned; vm_compute; done.
Qed.

Lemma every_parameter_is_used_in_EC2_mode_witness :
  filter (λ id, id ∉ flat_map token_ids
                       (allTokens (composed ∅ lambdaContext returning)))
    (declaredIds (composed ∅ lambdaContext returning))
  = (if bool_decide (runType lambdaContext = RunType.EC2) then []
     else [ "destStorageClass"; "destAcl"; "includeMetadata";
            "workerNumber" ]).
Proof.
  apply (every_parameter_is_used_in_EC2_mode ∅ lambdaContext returning).
  reflexivity.
Defined.

(** X13: every composition has one work queue and one table: each
    process environment names that queue and that table, which are also
    the ones of the outputs; the fleet, the dashboard and the event stack
    hold the work queue and never the dead-letter queue; every grant on
    a queue is on the work queue; and the work queue is a node of the
    tree. *)
Theorem one_queue_and_one_table pe ctx o :
  Forall (λ c, nodeEnv c.2 = []
               ∨ (envLookup "JOB_QUEUE_NAME" (nodeEnv c.2)
                  = Some (sqs.queueName (sqsQueue composedCommonStack))
                  ∧ envLookup "JOB_TABLE_NAME" (nodeEnv c.2)
                    = Some (ddb.tableName (jobTable composedCommonStack))))
    (children (composed pe ctx o))
  ∧ Forall (λ c, c.1 = "Common/S3TransferQueue"
                 ∨ c.1 = "Common/S3TransferDLQAlarm"
                 ∨ Forall (λ q, q = sqsQueue composedCommonStack)
                     (node_queues c.2))
      (children (composed pe ctx o))
  ∧ Forall (λ g, ∀ q, resource g = OnQueue q →
                      q = sqsQueue composedCommonStack)
      (grants (composed pe ctx o))
  ∧ nodeAt "Common/QueueName" (composed pe ctx o)
    = Some (Node.CfnOutput
              {| CfnOutputProps.value :=
                   sqs.queueName (sqsQueue composedCommonStack);
                 CfnOutputProps.description := "Queue Name" |})
  ∧ nodeAt "Common/TableName" (composed pe ctx o)
    = Some (Node.CfnOutput
              {| CfnOutputProps.value :=
                   ddb.tableName (jobTable composedCommonStack);
                 CfnOutputProps.description := "DynamoDB Table Name" |})
  ∧ nodeAt "Common/DLQQueueName" (composed pe ctx o)
    = Some (Node.CfnOutput
              {| CfnOutputProps.value := sqs.queueName composedDLQ;
                 CfnOutputProps.description := "Dead Letter Queue Name" |})
  ∧ nodeIs is_Queue (sqs.queuePath (sqsQueue composedCommonStack))
      (composed pe ctx o) = true.
Proof.
  compose_cases pe ctx o.
  all: split; [compute_done|].
  all: split; [compute_done|].
  all: split; [|vm_compute; done].
  all: apply Forall_forall; intros g Hg q Hq; revert Hg Hq; vm_compute;
       intros Hg Hq.
  all: repeat (apply elem_of_cons in Hg as [->|Hg]; [congruence|]).
  all: by apply elem_of_nil in Hg.
Qed.

(** ** The default policy *)

Lemma append_assoc (a b c : string) : (a +:+ b) +:+ c = a +:+ (b +:+ c).
Proof.
  induction a as [|x a IH]; [done|].
  change (String x ((a +:+ b) +:+ c) = String x (a +:+ (b +:+ c))).
  by rewrite IH.
Qed.

Lemma composed_policy pe ctx o :
  policyStatements (composed pe ctx o)
  = pair composedPolicy
      <$> DefaultPolicy_statements composedCommonStack
            {| sm.secretName := Ref "srcCredentials";
               sm.secretArn :=
                 Cat (Lit "arn:") (Cat Aws.PARTITION
                (Cat (Lit ":secretsmanager:") (Cat Aws.REGION
                (Cat (Lit ":") (Cat Aws.ACCOUNT_ID
                (Cat (Lit ":secret:") (Ref "srcCredentials"))))))) |}
            {| sm.secretName := Ref "destCredentials";
               sm.secretArn :=
                 Cat (Lit "arn:") (Cat Aws.PARTITION
                (Cat (Lit ":secretsmanager:") (Cat Aws.REGION
                (Cat (Lit ":") (Cat Aws.ACCOUNT_ID
                (Cat (Lit ":secret:") (Ref "destCredentials"))))))) |}
  ∧ inlinePolicies (composed pe ctx o)
    = (discoveryRole, composedPolicy)
      :: (if fleetInstantiated (composed pe ctx o)
          then [ (workerRole, composedPolicy) ] else []).
Proof. compose_cases pe ctx o; split; reflexivity. Qed.

(** X14: the default policy is attached to the discovery role and, where
    there is a fleet, to the worker role, and to no other; none of its
    statements has the action or the resource [*]; at deployment its
    resources are the ARN of the table and, for each of the two
    credential parameters, the secret ARN of that name followed by
    [-??????]. *)
Theorem default_policy_is_scoped pe ctx o :
  inlinePolicies (composed pe ctx o)
  = (discoveryRole, composedPolicy)
    :: (if fleetInstantiated (composed pe ctx o)
        then [ (workerRole, composedPolicy) ] else [])
  ∧ Forall (λ ps, ps.1 = composedPolicy
                  ∧ ("*" ∉ iam.actions ps.2)
                  ∧ (Lit "*" ∉ iam.resources ps.2)
                  ∧ iam.resources ps.2 ≠ [])
      (policyStatements (composed pe ctx o))
  ∧ ∀ ρ : gmap string string,
      resolve ρ <$> flat_map (λ ps, iam.resources ps.2)
                      (policyStatements (composed pe ctx o))
      = [ resolve ρ (ddb.tableArn (jobTable composedCommonStack));
          secretArnPattern ρ (resolve ρ (Ref "srcCredentials"));
          secretArnPattern ρ (resolve ρ (Ref "destCredentials")) ].
Proof.
  destruct (composed_policy pe ctx o) as [-> ->].
  split; [done|]. split; [compute_done|].
  intros ρ. unfold secretArnPattern. cbn.
  by rewrite !append_assoc.
Qed.

(** ** The nested template of the event stack *)

Lemma length_append (a b : string) :
  String.length (a +:+ b) = String.length a + String.length b.
Proof.
  induction a as [|x a IH]; [done|].
  change (S (String.length (a +:+ b))
          = S (String.length a + String.length b)).
  by rewrite IH.
Qed.

Lemma substring_append (a b : string) :
  String.substring 0 (String.length a) (a +:+ b) = a.
Proof.
  induction a as [|x a IH]; [by destruct b|].
  change (String x (String.substring 0 (String.length a) (a +:+ b))
          = String x a).
  by rewrite IH.
Qed.

Lemma slice_0_neg_suffix (base suffix : string) :
  slice_0_neg (String.length suffix) (base +:+ suffix) = base.
Proof.
  unfold slice_0_neg. rewrite length_append.
  replace (String.length base + String.length suffix - String.length suffix)
    with (String.length base) by lia.
  apply substring_append.
Qed.

Lemma composed_metadata pe ctx o :
  (compose pe ctx o).1 = Returned () →
  metadata (composed pe ctx o)
  = [ ("Common/S3TransferTable/Resource", "cfn_nag",
       rules_to_suppress
         [ {| id := "W74";
              reason := "Use deafult encryption. Encryption key owned by Amazon"
           |} ]);
      ("Common/S3TransferQueue/Resource", "cfn_nag",
       rules_to_suppress
         [ {| id := "W48"; reason := "No need to use encryption" |} ]) ]
    ++ (if EventStack_nested o
        then [ ("EventStack/Resource", "nestedTemplateName",
                text (slice_0_neg 5 (EventStack_templateFile o)));
               ("EventStack/Resource", "domain",
                text ("https://"
                      +:+ js_or (pe !! "TEMPLATE_OUTPUT_BUCKET")
                            "aws-gcr-solutions"
                      +:+ ".s3.amazonaws.com")) ]
        else []).
Proof.
  intros Hreturned. revert Hreturned.
  compose_cases pe ctx o; intros Hreturned; try done.
  all: reflexivity.
Qed.

(** X15: in a composition that completes with a nested event stack
    whose template file ends in [.json], the resource of the event stack
    carries the file name without [.json] as [nestedTemplateName] and the
    URL of the template bucket as [domain]; the bucket is
    [aws-gcr-solutions] when [TEMPLATE_OUTPUT_BUCKET] is unset or empty;
    and the logical id of the resource is overridden to [EventStack]. *)
Theorem nested_template_metadata pe ctx o base :
  (compose pe ctx o).1 = Returned () →
  EventStack_nested o = true →
  EventStack_templateFile o = base +:+ ".json" →
  filter (λ m, m.1.1 = "EventStack/Resource") (metadata (composed pe ctx o))
  = [ ("EventStack/Resource", "nestedTemplateName", text base);
      ("EventStack/Resource", "domain",
       text ("https://"
             +:+ js_or (pe !! "TEMPLATE_OUTPUT_BUCKET") "aws-gcr-solutions"
             +:+ ".s3.amazonaws.com")) ]
  ∧ (pe !! "TEMPLATE_OUTPUT_BUCKET" = None
     ∨ pe !! "TEMPLATE_OUTPUT_BUCKET" = Some EmptyString →
     js_or (pe !! "TEMPLATE_OUTPUT_BUCKET") "aws-gcr-solutions"
     = "aws-gcr-solutions")
  ∧ ("EventStack/Resource", "EventStack") ∈ logicalIds (composed pe ctx o).
Proof.
  intros Hreturned Hnested Hfile.
  rewrite composed_metadata by done. rewrite Hnested, Hfile.
  change 5 with (String.length ".json"). rewrite slice_0_neg_suffix.
  split; [reflexivity|]. split.
  - by intros [-> | ->].
  - revert Hreturned Hnested. clear Hfile.
    compose_cases pe ctx o; intros Hreturned Hnested; try done.
    all: compute_done.
Qed.

Lemma nested_template_metadata_witness :
  filter (λ m, m.1.1 = "EventStack/Resource")
    (metadata (composed ∅ ∅ returning))
  = [ ("EventStack/Resource", "nestedTemplateName",
       text "EventStack.nested.template");
      ("EventStack/Resource", "domain",
       text ("https://"
             +:+ js_or ((∅ : gmap string string) !! "TEMPLATE_OUTPUT_BUCKET")
                   "aws-gcr-solutions"
             +:+ ".s3.amazonaws.com")) ]
  ∧ ((∅ : gmap string string) !! "TEMPLATE_OUTPUT_BUCKET" = None
     ∨ (∅ : gmap string string) !! "TEMPLATE_OUTPUT_BUCKET"
       = Some EmptyString →
     js_or ((∅ : gmap string string) !! "TEMPLATE_OUTPUT_BUCKET")
       "aws-gcr-solutions"
     = "aws-gcr-solutions")
  ∧ ("EventStack/Resource", "EventStack")
    ∈ logicalIds (composed ∅ ∅ returning).
Proof.
  apply (nested_template_metadata ∅ ∅ returning "EventStack.nested.template");
    reflexivity.
Defined.

(** ** [CommonStack] on any stack *)


Lemma append_nil_r (s : string) : s +:+ EmptyString = s.
Proof.
  induction s as [|c s IH]; [done|].
  change (String c (s +:+ EmptyString) = String c s). by rewrite IH.
Qed.





(** ** The pattern of the alarm email *)

Lemma nullable_sound r : nullable r = true → Lang r EmptyString.
Proof.
  induction r as [| |f|r1 IH1 r2 IH2|r1 IH1 r2 IH2|r IH]; cbn; intros H;
    try done.
  - constructor.
  - apply andb_true_iff in H as [H1 H2].
    apply (Lang_seq r1 r2 EmptyString EmptyString); auto.
  - apply orb_true_iff in H as [H|H];
      [apply Lang_alt_l|apply Lang_alt_r]; auto.
  - constructor.
Qed.

Lemma Lang_seq_eps_l r s : Lang r s → Lang (RSeq REps r) s.
Proof. intros H. apply (Lang_seq REps r EmptyString s); [constructor|done]. Qed.

Lemma Lang_seq_eps_r r s : Lang r s → Lang (RSeq r REps) s.
Proof.
  intros H. rewrite <- (append_nil_r s).
  apply (Lang_seq r REps s EmptyString); [done|constructor].
Qed.

Lemma rseq_sound a b s : Lang (rseq a b) s → Lang (RSeq a b) s.
Proof.
  destruct a, b; cbn; intros H; try done; try (by inversion H);
    first [ by apply Lang_seq_eps_l | by apply Lang_seq_eps_r ].
Qed.

Lemma ralt_sound a b s : Lang (ralt a b) s → Lang (RAlt a b) s.
Proof.
  destruct a, b; cbn; intros H; try done; try (by inversion H);
    first [ by apply Lang_alt_r | by apply Lang_alt_l ].
Qed.

Lemma derivative_sound r c s : Lang (derivative c r) s → Lang r (String c s).
Proof.
  revert s.
  induction r as [| |f|r1 IH1 r2 IH2|r1 IH1 r2 IH2|r IH]; cbn; intros s H.
  - inversion H.
  - inversion H.
  - destruct (f c) eqn:Hf; inversion H; subst. by constructor.
  - destruct (nullable r1) eqn:Hnull.
    + apply ralt_sound in H. inversion H as [| | |? ? ? H'|? ? ? H'| |]; subst.
      * apply rseq_sound in H'.
        inversion H' as [| |? ? s1 s2 H1 H2| | | |]; subst.
        apply (Lang_seq r1 r2 (String c s1) s2); auto.
      * apply (Lang_seq r1 r2 EmptyString (String c s));
          [by apply nullable_sound | auto].
    + apply rseq_sound in H.
      inversion H as [| |? ? s1 s2 H1 H2| | | |]; subst.
      apply (Lang_seq r1 r2 (String c s1) s2); auto.
  - apply ralt_sound in H. inversion H; subst;
      [apply Lang_alt_l|apply Lang_alt_r]; auto.
  - apply rseq_sound in H.
    inversion H as [| |? ? s1 s2 H1 H2| | | |]; subst.
    apply (Lang_star_cons r (String c s1) s2); auto.
Qed.

(** Whatever the matcher accepts is in the language of the expression. *)
Lemma matches_sound r s : matches r s = true → Lang r s.
Proof.
  revert r. induction s as [|c s IH]; cbn; intros r H.
  - by apply nullable_sound.
  - by apply derivative_sound, IH.
Qed.

Lemma allChars_app f (a b : string) :
  allChars f (a +:+ b) = allChars f a && allChars f b.
Proof.
  induction a as [|c a IH]; [done|].
  change (f c && allChars f (a +:+ b) = f c && allChars f a && allChars f b).
  by rewrite IH, andb_assoc.
Qed.

Lemma allChars_weaken (f g : Ascii.ascii → bool) s :
  (∀ c, f c = true → g c = true) →
  allChars f s = true → allChars g s = true.
Proof.
  intros Hfg. induction s as [|c s IH]; cbn [allChars]; [done|].
  intros [Hc Hs]%andb_true_iff. by rewrite (Hfg c Hc), IH.
Qed.

Lemma occurrences_app x (a b : string) :
  occurrences x (a +:+ b) = occurrences x a + occurrences x b.
Proof.
  induction a as [|c a IH]; [done|].
  change ((if is_char x c then 1 else 0) + occurrences x (a +:+ b)
          = (if is_char x c then 1 else 0) + occurrences x a
            + occurrences x b).
  rewrite IH. lia.
Qed.

Lemma occurrences_none x f s :
  (∀ c, f c = true → is_char x c = false) →
  allChars f s = true → occurrences x s = 0.
Proof.
  intros Hf. induction s as [|c s IH]; cbn [allChars occurrences]; [done|].
  intros [Hc Hs]%andb_true_iff. by rewrite (Hf c Hc), IH.
Qed.

Lemma Lang_class_inv f s :
  Lang (RClass f) s → ∃ c, s = String c EmptyString ∧ f c = true.
Proof. inversion 1; eauto. Qed.

Lemma Lang_seq_inv r1 r2 s :
  Lang (RSeq r1 r2) s → ∃ s1 s2, s = s1 +:+ s2 ∧ Lang r1 s1 ∧ Lang r2 s2.
Proof. inversion 1; eauto. Qed.

Lemma Lang_star_class f s : Lang (RStar (RClass f)) s → allChars f s = true.
Proof.
  intros H. remember (RStar (RClass f)) as r eqn:Hr.
  induction H as [| | | | | |r s1 s2 H1 _ H2 IH2]; try done.
  injection Hr as ->.
  apply Lang_class_inv in H1 as (c & -> & Hc).
  change (f c && allChars f s2 = true). by rewrite Hc, IH2.
Qed.

Lemma Lang_plus_class f s :
  Lang (rplus (RClass f)) s → allChars f s = true ∧ 1 ≤ String.length s.
Proof.
  intros (s1 & s2 & -> & (c & -> & Hc)%Lang_class_inv & Hs)%Lang_seq_inv.
  apply Lang_star_class in Hs.
  change (f c && allChars f s2 = true ∧ 1 ≤ S (String.length s2)).
  rewrite Hc, Hs. split; [done|lia].
Qed.

Lemma Lang_roptional_class f n s :
  Lang (roptional n (RClass f)) s →
  allChars f s = true ∧ String.length s ≤ n.
Proof.
  revert s. induction n as [|n IH]; cbn; intros s H.
  - inversion H. split; [done|cbn; lia].
  - inversion H as [| | |? ? ? H'|? ? ? H'| |]; subst.
    + inversion H'. split; [done|cbn; lia].
    + apply Lang_seq_inv in H'
        as (s1 & s2 & -> & (c & -> & Hc)%Lang_class_inv & Hs).
      apply IH in Hs as [Hs Hlen].
      change (f c && allChars f s2 = true ∧ S (String.length s2) ≤ S n).
      rewrite Hc, Hs. split; [done|lia].
Qed.

Lemma Lang_rrepeat_class f lo extra s :
  Lang (rrepeat lo extra (RClass f)) s →
  allChars f s = true ∧ lo ≤ String.length s ≤ lo + extra.
Proof.
  revert s. induction lo as [|lo IH]; cbn; intros s H.
  - apply Lang_roptional_class in H as [??]. split; [done|lia].
  - apply Lang_seq_inv in H
      as (s1 & s2 & -> & (c & -> & Hc)%Lang_class_inv & Hs).
    apply IH in Hs as [Hs Hlen].
    change (f c && allChars f s2 = true
            ∧ S lo ≤ S (String.length s2) ≤ S lo + extra).
    rewrite Hc, Hs. split; [done|lia].
Qed.

Lemma is_char_eq (l c : Ascii.ascii) :
  is_char (String l EmptyString) c = true → c = l.
Proof.
  unfold is_char, in_range. intros [H1 H2]%andb_true_iff.
  apply Nat.leb_le in H1, H2.
  rewrite <- (Ascii.ascii_nat_embedding c), <- (Ascii.ascii_nat_embedding l).
  f_equal. lia.
Qed.

Lemma not_in_class (x : Ascii.ascii) (f : Ascii.ascii → bool) :
  f x = false → ∀ c, f c = true → is_char (String x EmptyString) c = false.
Proof.
  intros Hf c Hc. destruct (is_char (String x EmptyString) c) eqn:Hx; [|done].
  apply is_char_eq in Hx as ->. congruence.
Qed.

Lemma Lang_label s :
  Lang (RSeq (RClass alnum)
          (RSeq (rplus (RClass (λ c, is_char "-" c || alnum c)))
             (RClass (is_char ".")))) s →
  ∃ h, s = h +:+ "." ∧ allChars hostChar h = true ∧ 2 ≤ String.length h.
Proof.
  intros (s1 & s2 & -> & (c & -> & Hc)%Lang_class_inv
          & (s3 & s4 & -> & [Hs3 Hlen]%Lang_plus_class
             & (d & -> & ->%is_char_eq)%Lang_class_inv)%Lang_seq_inv)
         %Lang_seq_inv.
  exists (String c s3). split; [reflexivity|]. split; [|cbn; lia].
  change (hostChar c && allChars hostChar s3 = true).
  apply andb_true_iff. split.
  - unfold hostChar. by rewrite Hc, orb_true_r.
  - revert Hs3. apply allChars_weaken. unfold hostChar. intros x ->. done.
Qed.

Lemma Lang_labels s :
  Lang (RStar (RSeq (RClass alnum)
                 (RSeq (rplus (RClass (λ c, is_char "-" c || alnum c)))
                    (RClass (is_char "."))))) s →
  s = EmptyString
  ∨ ∃ h, s = h +:+ "." ∧ allChars hostChar h = true ∧ 2 ≤ String.length h.
Proof.
  intros H.
  remember (RStar (RSeq (RClass alnum)
                     (RSeq (rplus (RClass (λ c, is_char "-" c || alnum c)))
                        (RClass (is_char "."))))) as r eqn:Hr.
  induction H as [| | | | | |r s1 s2 H1 _ H2 IH2]; try done; [by left|].
  injection Hr as ->. right.
  apply Lang_label in H1 as (h1 & -> & Hh1 & Hlen1).
  destruct (IH2 eq_refl) as [->|(h2 & -> & Hh2 & Hlen2)].
  - exists h1. by rewrite append_nil_r.
  - exists (h1 +:+ "." +:+ h2). split; [by rewrite !append_assoc|].
    rewrite !allChars_app, !length_append, Hh1, Hh2.
    split; [reflexivity|lia].
Qed.

(** Whatever the pattern accepts has the shape of an address. *)
Lemma alarmEmail_pattern_shape v :
  matches (pattern_regex alarmEmail_pattern) v = true →
  emailShape v ∧ occurrences "@" v = 1.
Proof.
  intros H%matches_sound. cbn [pattern_regex alarmEmail_pattern] in H.
  apply Lang_seq_inv in H as (w & v1 & -> & (c & -> & Hc)%Lang_class_inv & H).
  apply Lang_seq_inv in H as (l & v2 & -> & Hl%Lang_star_class & H).
  apply Lang_seq_inv in H
    as (a & v3 & -> & (x & -> & ->%is_char_eq)%Lang_class_inv & H).
  apply Lang_seq_inv in H as (labels & tld & -> & Hlabels & Htld).
  apply Lang_rrepeat_class in Htld as [Htld Hlen].
  apply Lang_seq_inv in Hlabels
    as (first & more & -> & (h1 & -> & Hh1 & Hlen1)%Lang_label
        & Hmore%Lang_labels).
  assert (∃ host, (h1 +:+ ".") +:+ more = host +:+ "."
                  ∧ allChars hostChar host = true
                  ∧ 2 ≤ String.length host) as (host & -> & Hhost & Hlenh).
  { destruct Hmore as [->|(h2 & -> & Hh2 & Hlen2)].
    - exists h1. by rewrite append_nil_r.
    - exists (h1 +:+ "." +:+ h2). split; [by rewrite !append_assoc|].
      rewrite !allChars_app, !length_append, Hh1, Hh2.
      split; [reflexivity|lia]. }
  change (allChars localChar l = true) in Hl.
  change (allChars letter tld = true) in Htld.
  assert (allChars localChar (String c l) = true) as Hlocal.
  { change (localChar c && allChars localChar l = true).
    rewrite Hl. unfold localChar. by rewrite Hc, !orb_true_r. }
  rewrite !append_assoc.
  change (emailShape (String c l +:+ "@" +:+ host +:+ "." +:+ tld)
          ∧ occurrences "@" (String c l +:+ "@" +:+ host +:+ "." +:+ tld)
            = 1).
  split.
  - exists (String c l), host, tld. split_and!; done || lia.
  - rewrite !occurrences_app.
    rewrite (occurrences_none "@" localChar) by (done || by apply not_in_class).
    rewrite (occurrences_none "@" hostChar host)
      by (done || by apply not_in_class).
    rewrite (occurrences_none "@" letter tld)
      by (done || by apply not_in_class).
    reflexivity.
Qed.

(** X17: a value that validation accepts for [alarmEmail] is an address
    [local@host.tld]: a non-empty local part of word characters, [-],
    [.] and [+], a host of at least two characters among letters,
    digits, [-] and [.], and a last label of 2 to 14 letters; it has
    exactly one [@]. *)
Theorem accepted_alarm_email_is_an_address pe ctx o account
    (values : gmap string string) v :
  values !! "alarmEmail" = Some v →
  violationsOf "alarmEmail" (validate account values (composed pe ctx o))
  = [] →
  emailShape v ∧ occurrences "@" v = 1.
Proof.
  intros Hv Hvalid. apply alarmEmail_pattern_shape.
  rewrite violationsOf_validate, composed_parameters in Hvalid.
  assert (filter (λ p : CfnParameter, logicalId p = "alarmEmail")
            (parametersFor (runType ctx))
          = [ declared "alarmEmail" alarmEmail_props ]) as Hdecl.
  { unfold parametersFor.
    destruct (bool_decide (runType ctx = RunType.EC2)); reflexivity. }
  rewrite Hdecl in Hvalid. cbn [flat_map] in Hvalid.
  unfold checkParameter, effectiveValue in Hvalid.
  cbn [logicalId parameterProps declared] in Hvalid. rewrite Hv in Hvalid.
  unfold constraintViolations in Hvalid.
  cbn [typeViolations CfnParameterProps.type CfnParameterProps.allowedValues
       CfnParameterProps.allowedPattern alarmEmail_props] in Hvalid.
  destruct (matches (pattern_regex alarmEmail_pattern) v); [done|].
  discriminate Hvalid.
Qed.

Lemma accepted_alarm_email_is_an_address_witness :
  emailShape "ops@example.com" ∧ occurrences "@" "ops@example.com" = 1.
Proof.
  apply (accepted_alarm_email_is_an_address ∅ ∅ returning someAccount
           oneSubnet "ops@example.com").
  - reflexivity.
  - vm_compute. reflexivity.
Defined.
